(** * ml_api: the risk assessment endpoints and the report assembler

    A shallow embedding of [src/main.py] (the rule-based scorer and its
    [/predict] endpoint) and of [src/app.py] (the model-backed [/predict]
    endpoint, [bucketize] and [_build_pdf] with the content it assembles).

    Python floats are IEEE 754 binary64 numbers: they are Rocq's primitive
    floats, whose operations are the same ones.  Decimal literals such as
    [0.33] denote, in both languages, the nearest binary64 number. *)

From Stdlib Require Import ZArith Lia Floats Ascii.
From stdpp Require Import base option list strings gmap pretty.

Set Warnings "-inexact-float,-register-all".

Local Open Scope Z_scope.

(** ** Python's numeric builtins *)

Module Py.

(** [x >= y] and [x > y] on floats; both are false on a NaN. *)
Definition geb (x y : float) : bool := PrimFloat.leb y x.
Definition gtb (x y : float) : bool := PrimFloat.ltb y x.

(** [min(a, b)] keeps [a] unless [b < a]; [max(a, b)] keeps [a] unless
    [b > a]. *)
Definition min (a b : float) : float := if PrimFloat.ltb b a then b else a.
Definition max (a b : float) : float := if gtb b a then b else a.

(** The integer nearest to [p / q], ties to the even one ([0 <= p], [0 < q]). *)
Definition div_half_even (p q : Z) : Z :=
  let d := p / q in
  match 2 * (p mod q) ?= q with
  | Lt => d
  | Gt => d + 1
  | Eq => if Z.even d then d else d + 1
  end.

(** The integer nearest to [p / (q * 2^e)], ties to even. *)
Definition scaled_half_even (p q e : Z) : Z :=
  if 0 <=? e then div_half_even p (q * 2 ^ e)
  else div_half_even (p * 2 ^ (- e)) q.

(** [floor (log2 (p / q))] for positive [p] and [q]. *)
Definition floor_log2_ratio (p q : Z) : Z :=
  let l := Z.log2 p - Z.log2 q in
  let above := if 0 <=? l then q * 2 ^ l <=? p else q <=? p * 2 ^ (- l) in
  if above then l else l - 1.

(** The binary64 number nearest to the rational [p / q] ([0 <= p], [0 < q]),
    ties to even, and [infinity] past the largest finite one: what C's
    [strtod] returns on the decimal [p / q]. *)
Definition binary64_of_ratio (p q : Z) : float :=
  if p =? 0 then 0%float
  else
    let e := Z.max (floor_log2_ratio p q - 52) (-1074) in
    let m := scaled_half_even p q e in
    if 1024 <=? Z.log2 m + e then infinity
    else SF2Prim (S754_finite false (Z.to_pos m) e).

(** [float(z)] on an [int]: the nearest float, or [None] for the
    [OverflowError] of an [int] too large to convert. *)
Definition float_of_int (z : Z) : option float :=
  let r := binary64_of_ratio (Z.abs z) 1 in
  if is_infinity r then None
  else Some (if z <? 0 then (- r)%float else r).

(** [round(x, ndigits)] for [0 <= ndigits]: CPython prints [x] with
    [ndigits] decimals, correctly rounded (ties to even on the exact value
    of [x]), and reads the decimal back.  NaNs, infinities and zeros round
    to themselves.  The read-back cannot overflow when [0 <= ndigits]. *)
Definition round (x : float) (ndigits : Z) : float :=
  match Prim2SF x with
  | S754_finite s m e =>
      let k := scaled_half_even (Zpos m * 10 ^ ndigits) 1 (- e) in
      let r := binary64_of_ratio k (10 ^ ndigits) in
      if s then (- r)%float else r
  | _ => x
  end.

(** *** [repr] of a float

    CPython prints the shortest decimal that reads back as the same float
    and, among those, the one nearest to it; it uses scientific notation when
    the decimal exponent is below [-4] or above [16]. *)

(** [floor (log10 (p / q))] for positive [p] and [q]. *)
Definition floor_log10_ratio (p q : Z) : Z :=
  let est := floor_log2_ratio p q * 30103 / 100000 in
  let reaches k := if 0 <=? k then q * 10 ^ k <=? p else q <=? p * 10 ^ (- k) in
  if reaches (est + 1) then est + 1 else if reaches est then est else est - 1.

(** [x = p / q] in units of [10^s], as a fraction. *)
Definition in_units (p q s : Z) : Z * Z :=
  if 0 <=? s then (p, q * 10 ^ s) else (p * 10 ^ (- s), q).

(** The [n]-digit decimal [c * 10^(d - n)] that reads back as [x = p / q],
    if there is one: the nearer of the two that surround [x], when both do. *)
Definition digits_at (x : float) (p q d n : Z) : option Z :=
  let s := d - n in
  let '(P, Q) := in_units p q s in
  let lo := P / Q in
  let hi := lo + 1 in
  let back c :=
    if 0 <=? s then binary64_of_ratio (c * 10 ^ s) 1
    else binary64_of_ratio c (10 ^ (- s)) in
  let reads c := PrimFloat.eqb (back c) x in
  match reads lo, reads hi with
  | true, true => Some (div_half_even P Q)
  | true, false => Some lo
  | false, true => Some hi
  | false, false => None
  end.

(** The search for the shortest such decimal, from [n] digits on; [fuel]
    bounds the lengths tried, and the nearest decimal of the last length is
    taken when none of them is reached (17 digits always read back). *)
Fixpoint shortest_digits (fuel : nat) (x : float) (p q d n : Z) : Z * Z :=
  match fuel with
  | O => let '(P, Q) := in_units p q (d - n) in (div_half_even P Q, n)
  | S fuel' =>
      match digits_at x p q d n with
      | Some c => (c, n)
      | None => shortest_digits fuel' x p q d (n + 1)
      end
  end.

Fixpoint strip_zeros (fuel : nat) (c : Z) : Z :=
  match fuel with
  | O => c
  | S fuel' => if (c mod 10 =? 0) && (0 <? c) then strip_zeros fuel' (c / 10) else c
  end.

Definition zeros (n : Z) : string := String.concat "" (replicate (Z.to_nat n) "0"%string).

(** The digits [ds], read as [0.ds * 10^decpt], in [repr]'s layout. *)
Definition layout (ds : string) (decpt : Z) : string :=
  let n := Z.of_nat (String.length ds) in
  if (decpt <=? -4) || (16 <? decpt) then
    let mantissa :=
      match ds with
      | String c EmptyString => String c EmptyString
      | String c rest => String c ("." +:+ rest)
      | EmptyString => EmptyString
      end in
    let ex := decpt - 1 in
    mantissa +:+ "e" +:+ (if ex <? 0 then "-" else "+")
      +:+ (if Z.abs ex <? 10 then "0" else "") +:+ pretty (Z.abs ex)
  else if decpt <=? 0 then "0." +:+ zeros (- decpt) +:+ ds
  else if n <=? decpt then ds +:+ zeros (decpt - n) +:+ ".0"
  else String.substring 0 (Z.to_nat decpt) ds +:+ "."
         +:+ String.substring (Z.to_nat decpt) (Z.to_nat (n - decpt)) ds.

Definition repr (x : float) : string :=
  match Prim2SF x with
  | S754_nan => "nan"
  | S754_infinity s => if s then "-inf" else "inf"
  | S754_zero s => if s then "-0.0" else "0.0"
  | S754_finite s m e =>
      let p := if 0 <=? e then Zpos m * 2 ^ e else Zpos m in
      let q := if 0 <=? e then 1 else 2 ^ (- e) in
      let d := floor_log10_ratio p q + 1 in
      let '(c, n) := shortest_digits 16 (abs x) p q d 1 in
      let width := Z.of_nat (String.length (pretty c)) in
      (if s then "-" else "") +:+ layout (pretty (strip_zeros 20 c)) (d + width - n)
  end.

End Py.

(** ** JSON values and Python's view of them *)

(** What [request.get_json] decodes a body to: [None] is [JNull], a JSON
    object is a [dict] with string keys. *)
Inductive json :=
| JNull
| JBool (b : bool)
| JInt (z : Z)
| JFloat (f : float)
| JStr (s : string)
| JList (l : list json)
| JDict (d : gmap string json).

Abbreviation dict := (gmap string json).

(** Calls that can raise: [Raise e] stands for the exception [e] in flight. *)
Inductive result (E A : Type) :=
| Ok (a : A)
| Raise (e : E).
Arguments Ok {E A} a.
Arguments Raise {E A} e.

#[export] Instance result_bind {E} : MBind (result E) :=
  λ A B f m, match m with Ok a => f a | Raise e => Raise e end.

(** The classes of the exceptions that the builtins used here raise; their
    messages are never read by the code. *)
Inductive builtin_exn := TypeError | ValueError | OverflowError | KeyError.

(** Truth value of a decoded value, as [or], [not] and [if] test it. *)
Definition truthy (v : json) : bool :=
  match v with
  | JNull => false
  | JBool b => b
  | JInt z => negb (z =? 0)
  | JFloat f => negb (PrimFloat.eqb f 0)
  | JStr s => negb (String.eqb s "")
  | JList l => match l with [] => false | _ => true end
  | JDict d => negb (bool_decide (d = ∅))
  end.

(** [v or w] *)
Definition or_else (v w : json) : json := if truthy v then v else w.

(** [v is not None] *)
Definition is_not_None (v : json) : bool :=
  match v with JNull => false | _ => true end.

(** [d.get(k, default)] and [d.get(k)] on a [dict]. *)
Definition get_or (d : dict) (k : string) (default : json) : json :=
  match d !! k with Some v => v | None => default end.
Definition get (d : dict) (k : string) : json := get_or d k JNull.

Section Coercion.

(** [float(s)] on a [str]: Python's own parser of float literals, [None]
    when it raises [ValueError]. *)
Variable float_of_str : string → option float.

(** [float(v)]: numbers convert ([bool] is a subclass of [int]), strings are
    parsed, anything else is a [TypeError]. *)
Definition py_float (v : json) : result builtin_exn float :=
  match v with
  | JNull | JList _ | JDict _ => Raise TypeError
  | JBool b => Ok (if b then 1 else 0)%float
  | JInt z =>
      match Py.float_of_int z with
      | Some f => Ok f
      | None => Raise OverflowError
      end
  | JFloat f => Ok f
  | JStr s =>
      match float_of_str s with
      | Some f => Ok f
      | None => Raise ValueError
      end
  end.

End Coercion.

(** A Flask response: [jsonify(body), status]. *)
Record response := Response { body : json; status : Z }.

Definition error_body (msg : string) : json := JDict {[ "error" := JStr msg ]}.

(** ** src/main.py: the rule-based scorer and its endpoint *)

Module Main.

Local Open Scope float_scope.
Local Notation "x >=? y" := (Py.geb x y) (at level 70) : float_scope.

(** Exceptions in flight inside [predict]: the [ValueError] that [_to_float]
    raises with its message, or a builtin's own exception. *)
Inductive exn :=
| ValueErrorMsg (msg : string)
| Builtin (e : builtin_exn).

Section Endpoint.

Variable float_of_str : string → option float.

Definition _to_float (x : json) (name : string) : result exn float :=
  match py_float float_of_str x with
  | Ok f => Ok f
  | Raise TypeError | Raise ValueError =>
      Raise (ValueErrorMsg ("'" +:+ name +:+ "' must be a number"))
  | Raise e => Raise (Builtin e)
  end.

(** The accumulated [score] of [compute_risk] (lines 20-54). *)
Definition risk_score (bp heart_rate sugar bmi : float) : float :=
  let score := 0.0 in
  let score :=
    if bp >=? 180 then score + 3
    else if bp >=? 160 then score + 2.5
    else if bp >=? 140 then score + 2
    else if bp <=? 90 then score + 0.5
    else score in
  let score :=
    if heart_rate >=? 120 then score + 2
    else if heart_rate >=? 100 then score + 1.5
    else if heart_rate <=? 50 then score + 1
    else score in
  let score :=
    if sugar >=? 250 then score + 3
    else if sugar >=? 180 then score + 2
    else if sugar >=? 126 then score + 1
    else score in
  let score :=
    if bmi >=? 35 then score + 2.5
    else if bmi >=? 30 then score + 2
    else if bmi <=? 18.5 then score + 1
    else score in
  score.

(** The three branch formulas of the band mapping (lines 59, 62, 65). *)
Definition low_prob (score : float) : float := Py.min 0.35 (0.15 + 0.1 * score).
Definition medium_prob (score : float) : float := Py.min 0.7 (0.45 + 0.1 * (score - 2)).
Definition high_prob (score : float) : float := Py.min 0.95 (0.7 + 0.05 * (score - 4)).

(** The band mapping and the clamp of [compute_risk] (lines 56-69). *)
Definition risk_band (score : float) : string * float :=
  let '(label, prob) :=
    if score <=? 2.0 then ("Low"%string, low_prob score)
    else if score <=? 4.0 then ("Medium"%string, medium_prob score)
    else ("High"%string, high_prob score) in
  let prob := Py.max 0.01 (Py.min 0.99 prob) in
  (label, prob).

Definition compute_risk (bp heart_rate sugar bmi : float) : string * float :=
  risk_band (risk_score bp heart_rate sugar bmi).

(** The body of the [try] in [predict], once the payload is a [dict]. *)
Definition assess (payload : dict) : result exn response :=
  bp ← _to_float (get payload "bp") "bp";
  heart_rate ← _to_float (get payload "heart_rate") "heart_rate";
  sugar ← _to_float (get payload "sugar") "sugar";
  bmi ← _to_float (get payload "bmi") "bmi";
  let '(risk, probability) := compute_risk bp heart_rate sugar bmi in
  Ok (Response
        (JDict {[ "risk" := JStr risk;
                  "probability" := JFloat (Py.round probability 3);
                  "inputs" := JDict {[ "bp" := JFloat bp;
                                       "heart_rate" := JFloat heart_rate;
                                       "sugar" := JFloat sugar;
                                       "bmi" := JFloat bmi ]} ]})
        200).

(** [POST /predict].  [request_json] is what [request.get_json(force=True,
    silent=False)] decodes, [None] when it raises on a body that is not
    JSON (caught, like every other exception, by [except Exception]). *)
Definition predict (request_json : option json) : response :=
  match request_json with
  | None => Response (error_body "Prediction failed") 500
  | Some (JDict payload) =>
      match assess payload with
      | Ok r => r
      | Raise (ValueErrorMsg msg) => Response (error_body msg) 400
      | Raise (Builtin _) => Response (error_body "Prediction failed") 500
      end
  | Some _ => Response (error_body "Invalid JSON body") 400
  end.

End Endpoint.

(** [GET /health] *)
Definition health : response := Response (JDict {[ "status" := JStr "ok" ]}) 200.

End Main.

(** ** src/app.py: the model-backed endpoint and the report content *)

Module App.

Local Open Scope float_scope.

Definition bucketize (prob : float) : string :=
  if prob <? 0.33 then "Low"
  else if prob <? 0.66 then "Medium"
  else "High".

(** The loaded artifact, as [predict] uses it: the value of
    [float(model.predict_proba(X)[0, 1])] on [X = [[bp, hr, sugar, bmi]]], or
    the message of the exception raised on the way. *)
Definition artifact := float → float → float → float → result string float.

Definition required : list string := ["bp"; "heart_rate"; "sugar"; "bmi"]%string.

(** [k occurs in s], the test [k in s] on two strings. *)
Fixpoint is_substring (k s : string) : bool :=
  String.prefix k s
  || match s with
     | String _ rest => is_substring k rest
     | EmptyString => false
     end.

(** [k in data]: a key of a dict, an element of a list, a substring of a
    string; a [TypeError] on the other values. *)
Definition contains (data : json) (k : string) : result builtin_exn bool :=
  match data with
  | JDict d => Ok (bool_decide (is_Some (d !! k)))
  | JList l =>
      Ok (existsb (λ v, match v with JStr s => String.eqb s k | _ => false end) l)
  | JStr s => Ok (is_substring k s)
  | JNull | JBool _ | JInt _ | JFloat _ => Raise TypeError
  end.

(** [[k for k in keys if k not in data]] *)
Fixpoint absent_keys (data : json) (keys : list string) : result builtin_exn (list string) :=
  match keys with
  | [] => Ok []
  | k :: keys' =>
      present ← contains data k;
      rest ← absent_keys data keys';
      Ok (if present : bool then rest else k :: rest)
  end.

(** [data[k]] with a string [k]: only a dict can be indexed by it. *)
Definition subscript (data : json) (k : string) : result builtin_exn json :=
  match data with
  | JDict d => match d !! k with Some v => Ok v | None => Raise KeyError end
  | _ => Raise TypeError
  end.

Section Endpoint.

Variable float_of_str : string → option float.

(** The body of the first [try] of [predict]. *)
Definition coerce (data : json) : result builtin_exn (float * float * float * float) :=
  bp ← subscript data "bp" ≫= py_float float_of_str;
  hr ← subscript data "heart_rate" ≫= py_float float_of_str;
  sugar ← subscript data "sugar" ≫= py_float float_of_str;
  bmi ← subscript data "bmi" ≫= py_float float_of_str;
  Ok (bp, hr, sugar, bmi).

(** [POST /predict] with the global [model] ([None] when the artifact did
    not load) and what [request.get_json(silent=True)] returns ([None] when
    the body is not JSON).  [Raise e] is an exception that no handler of the
    view catches. *)
Definition predict (model : option artifact) (request_json : option json)
  : result builtin_exn response :=
  match model with
  | None => Ok (Response (error_body "Model not loaded. Train first.") 500)
  | Some model =>
      let data := or_else (default JNull request_json) (JDict ∅) in
      missing ← absent_keys data required;
      if bool_decide (missing ≠ []) then
        Ok (Response (error_body ("Missing fields: " +:+ String.concat ", " missing)) 400)
      else
        match coerce data with
        | Raise TypeError | Raise ValueError =>
            Ok (Response (error_body "All fields must be numbers") 400)
        | Raise e => Raise e
        | Ok (bp, hr, sugar, bmi) =>
            match model bp hr sugar bmi with
            | Raise msg => Ok (Response (error_body ("Prediction failed: " +:+ msg)) 500)
            | Ok proba =>
                let risk := bucketize proba in
                Ok (Response
                      (JDict {[ "risk" := JStr risk;
                                "probability" := JFloat (Py.round proba 4) ]})
                      200)
            end
        end
  end.

End Endpoint.

(** *** The report: [_build_pdf] and the content it assembles *)

(** [s.title()] on ASCII text: the first letter of each run of letters in
    upper case, the others in lower case. *)
Definition is_upper (c : ascii) : bool :=
  let n := nat_of_ascii c in ((65 <=? n) && (n <=? 90))%nat.
Definition is_lower (c : ascii) : bool :=
  let n := nat_of_ascii c in ((97 <=? n) && (n <=? 122))%nat.
Definition upper (c : ascii) : ascii :=
  if is_lower c then ascii_of_nat (nat_of_ascii c - 32) else c.
Definition lower (c : ascii) : ascii :=
  if is_upper c then ascii_of_nat (nat_of_ascii c + 32) else c.

Fixpoint title_from (in_word : bool) (s : string) : string :=
  match s with
  | EmptyString => EmptyString
  | String c rest =>
      String (if in_word then lower c else upper c)
             (title_from (is_upper c || is_lower c) rest)
  end.
Definition title (s : string) : string := title_from false s.

Section Report.

(** [str(v)] on a list or a dict: Python's [repr] of containers. *)
Variable container_repr : json → string.

(** [str(v)], also what an f-string prints for [{v}]. *)
Definition py_str (v : json) : string :=
  match v with
  | JNull => "None"
  | JBool b => if b then "True" else "False"
  | JInt z => pretty z
  | JFloat f => Py.repr f
  | JStr s => s
  | JList _ | JDict _ => container_repr v
  end.

(** [v.get(k)]: an [AttributeError] (here [None]) unless [v] is a dict. *)
Definition attr_get (v : json) (k : string) : option json :=
  match v with
  | JDict d => Some (get d k)
  | _ => None
  end.

Definition user_fields : list string := ["name"; "email"; "age"; "gender"; "id"]%string.

(** Lines 114-121: the lines of the user block. *)
Definition user_lines (data : dict) : option (list string) :=
  match or_else (get data "user") (JDict ∅) with
  | JDict user =>
      let lines :=
        flat_map (λ k, if is_not_None (get user k)
                       then ["<b>" +:+ title k +:+ "</b>: " +:+ py_str (get user k)]
                       else []) user_fields in
      Some (match lines with [] => ["No user details provided"%string] | _ => lines end)
  | _ => None
  end.

Definition table_header : list string :=
  ["Date"; "Systolic"; "Diastolic"; "Heart Rate"; "Glucose"; "BMI"]%string.

(** Lines 131-138: the row of one reading. *)
Definition table_row (r : dict) : list string :=
  [ py_str (get_or r "date" (JStr ""));
    py_str (get_or r "systolic" (JStr ""));
    py_str (get_or r "diastolic" (JStr ""));
    py_str (get_or r "heartRate" (JStr ""));
    py_str (get_or r "sugar" (JStr ""));
    py_str (get_or r "bmi" (JStr "")) ].

(** Lines 128-138: [table_data].  Slicing or iterating anything but a list
    of dicts ends in an exception ([None]). *)
Definition table_data (data : dict) : option (list (list string)) :=
  match or_else (get data "readings") (JList []) with
  | JList readings =>
      rows ← mapM (λ r, match r with JDict d => Some (table_row d) | _ => None end)
                  (take 5 readings);
      Some (table_header :: rows)
  | _ => None
  end.

(** Lines 153-160: the text given to the summary paragraph,
    [ai_summary or 'N/A']. *)
Definition summary (data : dict) : option json :=
  let ai_summary := get data "ai_summary" in
  ai_summary ←
    (if negb (truthy ai_summary) then
       let pred := or_else (get data "prediction") (JDict ∅) in
       risk ← attr_get pred "risk";
       proba ← attr_get pred "probability";
       Some (if is_not_None risk && is_not_None proba
             then JStr ("Risk: " +:+ py_str risk +:+ " (probability " +:+ py_str proba +:+ ")")
             else ai_summary)
     else Some ai_summary);
  Some (or_else ai_summary (JStr "N/A")).

Record report := Report {
  user_block : list string;
  readings_table : list (list string);
  summary_text : json
}.

(** The three parts that [_build_pdf] computes from the request (lines
    114-121, 128-138 and 153-160); [None] when computing one of them
    raises. *)
Definition report_content (data : json) : option report :=
  match data with
  | JDict data =>
      u ← user_lines data;
      t ← table_data data;
      s ← summary data;
      Some (Report u t s)
  | _ => None
  end.

(** The three parts for the body that [generate_report] decodes (line 73):
    [request.get_json(silent=True) or {}]. *)
Definition generate_report_content (request_json : option json) : option report :=
  report_content (or_else (default JNull request_json) (JDict ∅)).

(** The time of the call, as [strftime("%Y-%m-%d %H:%M UTC")] prints it. *)
Variable generated : string.

(** reportlab, as [_build_pdf] uses it.  [Paragraph text] tells whether
    [Paragraph(text, style)] is built: it raises on a text that is not a
    string and on markup that does not parse.  [Table] tells the same of
    [Table(table_data, ...)] with its style, and [build] of
    [doc.build(elements)]. *)
Variable Paragraph : json → bool.
Variable Table : list (list string) → bool.
Variable build : report → bool.

(** A call that raises when [ok] is false. *)
Definition requires (ok : bool) : option unit := if ok then Some () else None.

(** [_build_pdf(buffer, data)]: the content of the document that is
    written, [None] when an exception is raised on the way. *)
Definition _build_pdf (data : json) : option report :=
  requires (Paragraph (JStr "HealTrack Health Report"));;
  requires (Paragraph (JStr ("Generated: " +:+ generated)));;
  match data with
  | JDict data =>
      requires (Paragraph (JStr "User Details"));;
      lines ← user_lines data;
      requires (forallb (λ line, Paragraph (JStr line)) lines);;
      requires (Paragraph (JStr "Last 5 Health Readings"));;
      table ← table_data data;
      requires (Table table);;
      requires (Paragraph (JStr "AI Prediction Summary"));;
      text ← summary data;
      requires (Paragraph text);;
      requires (build (Report lines table text));;
      Some (Report lines table text)
  | _ => None
  end.

(** The texts given to [Paragraph] for a document of content [rep], in the
    order of the calls. *)
Definition paragraph_texts (rep : report) : list json :=
  [JStr "HealTrack Health Report"; JStr ("Generated: " +:+ generated);
   JStr "User Details"]
  ++ (JStr <$> user_block rep)
  ++ [JStr "Last 5 Health Readings"; JStr "AI Prediction Summary"; summary_text rep].

End Report.

(** [GET /health], with the global [model]. *)
Definition health (model : option artifact) : response :=
  Response
    (JDict {[ "status" := JStr "ok";
              "model_loaded" := JBool (match model with Some _ => true | None => false end) ]})
    200.

End App.

(** ** Vocabulary of the validation properties *)

Section Validation.

Variable float_of_str : string → option float.

(** A value that [float] rejects with a [TypeError] or a [ValueError]. *)
Definition not_a_number (v : json) : Prop :=
  py_float float_of_str v = Raise TypeError ∨ py_float float_of_str v = Raise ValueError.

(** [k] is the first required key whose value is absent or not a number:
    the keys before it convert. *)
Definition first_invalid (payload : dict) (i : nat) (k : string) : Prop :=
  App.required !! i = Some k
  ∧ not_a_number (get payload k)
  ∧ ∀ j k', (j < i)%nat → App.required !! j = Some k' →
            ∃ x, py_float float_of_str (get payload k') = Ok x.

(** [k] is the first required key whose value fails to convert, and it
    fails as an integer too large for a float. *)
Definition first_overflow (payload : dict) (i : nat) (k : string) : Prop :=
  App.required !! i = Some k
  ∧ py_float float_of_str (get payload k) = Raise OverflowError
  ∧ ∀ j k', (j < i)%nat → App.required !! j = Some k' →
            ∃ x, py_float float_of_str (get payload k') = Ok x.

End Validation.

(** ** Vocabulary of the further properties *)

(** The three labels in increasing order of risk. *)
Definition band_rank (label : string) : nat :=
  if String.eqb label "Low" then 0
  else if String.eqb label "Medium" then 1
  else 2.

(** The scores from 0 to 10.5 by steps of 0.5. *)
Definition half_steps : list float :=
  [0; 0.5; 1; 1.5; 2; 2.5; 3; 3.5; 4; 4.5; 5; 5.5; 6; 6.5; 7; 7.5; 8; 8.5; 9; 9.5;
   10; 10.5]%float.

(** The answers of the rule-based endpoint: label and rounded probability. *)
Definition risk_table : list (string * float) :=
  [ ("Low", 0.15); ("Low", 0.2); ("Low", 0.25); ("Low", 0.3); ("Low", 0.35);
    ("Medium", 0.5); ("Medium", 0.55); ("Medium", 0.6); ("Medium", 0.65);
    ("High", 0.725); ("High", 0.75); ("High", 0.775); ("High", 0.8);
    ("High", 0.825); ("High", 0.85); ("High", 0.875); ("High", 0.9);
    ("High", 0.925); ("High", 0.95) ]%float.

Definition is_dict (v : json) : bool :=
  match v with JDict _ => true | _ => false end.

(** A value that [v or {}] replaces or keeps as a dict. *)
Definition falsy_or_dict (v : json) : Prop := truthy v = false ∨ is_dict v = true.

(** ** Inputs of the examples *)

Module Examples.

(** The example requests hold numbers only, neither a string to parse nor a
    container to print: a parser that accepts no string and a printer that
    prints nothing stand for Python's own in them. *)
Definition no_literal : string → option float := λ _, None.
Definition no_container : json → string := λ _, ""%string.

Definition four_vitals : dict :=
  {[ "bp" := JInt 120; "heart_rate" := JInt 70; "sugar" := JInt 100; "bmi" := JInt 24 ]}.

Definition fast_pulse : dict :=
  {[ "bp" := JInt 120; "heart_rate" := JInt 100; "sugar" := JInt 100; "bmi" := JInt 24 ]}.

Definition two_vitals : dict := {[ "bp" := JInt 120; "heart_rate" := JInt 70 ]}.

(** Seven dated readings, and a report request that carries them. *)
Definition reading (date : string) (systolic : Z) : dict :=
  {[ "date" := JStr date; "systolic" := JInt systolic ]}.

Definition seven_readings : list dict :=
  [ reading "2024-03-07" 131; reading "2024-03-06" 128; reading "2024-03-05" 135;
    reading "2024-03-04" 122; reading "2024-03-03" 140; reading "2024-03-02" 119;
    reading "2024-03-01" 126 ].

Definition report_request : dict :=
  {[ "readings" := JList (JDict <$> seven_readings);
     "prediction" := JDict {[ "risk" := JStr "Medium"; "probability" := JFloat 0.5 ]} ]}.

(** Vitals (bp, heart rate, glucose, bmi) that reach, in its order, each
    answer of [risk_table]. *)
Definition table_inputs : list (float * float * float * float) :=
  [ (120, 70, 100, 24); (85, 70, 100, 24); (120, 45, 100, 24); (120, 100, 100, 24);
    (140, 70, 100, 24); (160, 70, 100, 24); (180, 70, 100, 24); (160, 45, 100, 24);
    (180, 45, 100, 24); (180, 100, 100, 24); (180, 120, 100, 24); (160, 120, 126, 24);
    (180, 120, 126, 24); (160, 120, 180, 24); (180, 120, 180, 24); (160, 120, 250, 24);
    (180, 120, 250, 24); (160, 120, 250, 18); (180, 120, 250, 18) ]%float.

(** A report request with a user profile, one whose sixth reading is not
    an object, and one whose only reading is a string. *)
Definition profile_request : dict :=
  {[ "user" := JDict {[ "name" := JStr "Ann"; "age" := JInt 30 ]} ]}.

Definition stray_sixth_request : dict :=
  {[ "readings" := JList ((JDict <$> take 5 seven_readings) ++ [JStr "n/a"]) ]}.

Definition stray_first_request : dict := {[ "readings" := JList [JStr "n/a"] ]}.

(** A report request with a summary and a prediction that is a number. *)
Definition summary_request : dict :=
  {[ "ai_summary" := JStr "Stable."; "prediction" := JInt 3 ]}.

(** A reading with its six sub-fields. *)
Definition complete_reading : dict :=
  {[ "date" := JStr "2024-03-08"; "systolic" := JInt 128; "diastolic" := JInt 82;
     "heartRate" := JInt 71; "sugar" := JFloat 104.5; "bmi" := JFloat 24.5 ]}.

(** A time of generation, and reportlab when it accepts every text and
    builds every document. *)
Definition a_time : string := "2024-03-08 10:00 UTC".
Definition every_text : json → bool := λ _, true.
Definition every_table : list (list string) → bool := λ _, true.
Definition every_document : App.report → bool := λ _, true.

(** A payload whose blood pressure is too large for a float and whose
    heart rate is not a number. *)
Definition huge_bp : dict :=
  {[ "bp" := JInt (10 ^ 309); "heart_rate" := JNull;
     "sugar" := JInt 100; "bmi" := JInt 24 ]}.

(** A report request with no field at all. *)
Definition empty_request : dict := ∅.

(** A reading that gives its glucose under the key [glucose]. *)
Definition glucose_reading : dict :=
  {[ "date" := JStr "2024-03-07"; "glucose" := JInt 99 ]}.

(** A report request with these two readings. *)
Definition two_readings_request : dict :=
  {[ "readings" := JList [JDict complete_reading; JDict glucose_reading] ]}.

(** An artifact that answers [proba] on every input, and one that raises. *)
Definition constant_model (proba : float) : App.artifact := λ _ _ _ _, Ok proba.
Definition failing_model : App.artifact := λ _ _ _ _, Raise "singular matrix"%string.

End Examples.

(** * Properties *)

(** ** The order on floats *)

Section FloatOrder.

Local Open Scope float_scope.

Lemma SFcompare_antisym (a b : spec_float) (c : comparison) :
  SFcompare a b = Some c → SFcompare b a = Some (CompOpp c).
Proof.
  destruct a as [[]|[]| |[] m1 e1], b as [[]|[]| |[] m2 e2]; simpl;
    try (intros [= <-]; reflexivity); try discriminate.
  - intros [= <-]. f_equal. rewrite (Z.compare_antisym e1 e2).
    destruct (e1 ?= e2)%Z; simpl; try reflexivity.
    rewrite CompOpp_involutive, Pos.compare_cont_antisym. reflexivity.
  - intros [= <-]. f_equal. rewrite (Z.compare_antisym e1 e2).
    destruct (e1 ?= e2)%Z; simpl; try reflexivity.
    rewrite Pos.compare_cont_antisym. reflexivity.
Qed.

Lemma ltb_leb (x y : float) : (x <? y) = true → (x <=? y) = true.
Proof.
  rewrite ltb_spec, leb_spec. unfold SFltb, SFleb.
  destruct (SFcompare _ _) as [[]|]; done.
Qed.

Lemma leb_not_ltb (x y : float) : (x <=? y) = true → (y <? x) = false.
Proof.
  rewrite ltb_spec, leb_spec. unfold SFltb, SFleb.
  destruct (SFcompare (Prim2SF x) _) as [c|] eqn:E; [|done].
  rewrite (SFcompare_antisym _ _ _ E). destruct c; done.
Qed.

(** Two numbers (no NaN) always compare. *)
Lemma SFcompare_number (a b : spec_float) :
  a ≠ S754_nan → b ≠ S754_nan → ∃ c, SFcompare a b = Some c.
Proof. destruct a, b; simpl; intros; try done; eauto. Qed.

Lemma leb_number_r (x y : float) : (x <=? y) = true → Prim2SF y ≠ S754_nan.
Proof.
  rewrite leb_spec. unfold SFleb. intros H E. rewrite E in H.
  destruct (Prim2SF x); discriminate.
Qed.

Lemma leb_number_l (x y : float) : (x <=? y) = true → Prim2SF x ≠ S754_nan.
Proof.
  rewrite leb_spec. unfold SFleb. intros H E. rewrite E in H. discriminate.
Qed.

Lemma not_ltb_leb (x y : float) :
  Prim2SF x ≠ S754_nan → Prim2SF y ≠ S754_nan →
  (x <? y) = false → (y <=? x) = true.
Proof.
  intros Hx Hy. rewrite ltb_spec, leb_spec. unfold SFltb, SFleb.
  destruct (SFcompare_number _ _ Hx Hy) as [c E]. rewrite E.
  rewrite (SFcompare_antisym _ _ _ E). destruct c; done.
Qed.

Lemma SFleb_trans (a b c : spec_float) :
  SFleb a b = true → SFleb b c = true → SFleb a c = true.
Proof.
  unfold SFleb.
  destruct a as [[]|[]| |[] m1 e1], b as [[]|[]| |[] m2 e2], c as [[]|[]| |[] m3 e3];
    simpl; try done;
    change (Pos.compare_cont Eq) with Pos.compare;
    destruct (Z.compare_spec e1 e2), (Z.compare_spec e2 e3), (Z.compare_spec e1 e3);
    try done; try lia; subst;
    destruct (Pos.compare_spec m1 m2), (Pos.compare_spec m2 m3), (Pos.compare_spec m1 m3);
    simpl; try done; try lia.
Qed.

Lemma leb_trans (x y z : float) :
  (x <=? y) = true → (y <=? z) = true → (x <=? z) = true.
Proof. rewrite !leb_spec. apply SFleb_trans. Qed.

End FloatOrder.

(** ** The scorer: thresholds and bands *)

Section Scorer.

Local Open Scope float_scope.

(** Splits on the outcome of every threshold test on a vital; the scorer
    is then a closed computation in each case. *)
Ltac split_thresholds :=
  repeat match goal with
    | |- context [PrimFloat.leb ?a ?b] =>
        first [is_var a | is_var b]; destruct (PrimFloat.leb a b)
    end.

(** However the four vitals compare with the thresholds, the label and the
    probability stay within the band's own range, and the three ranges are
    apart from each other. *)
Lemma compute_risk_bands (bp heart_rate sugar bmi : float) :
  let '(label, prob) := Main.compute_risk bp heart_rate sugar bmi in
  (label = "Low" ∧ (0.15 <=? prob) = true ∧ (prob <=? 0.35) = true) ∨
  (label = "Medium" ∧ (0.5 <=? prob) = true ∧ (prob <=? 0.65) = true) ∨
  (label = "High" ∧ (0.725 <=? prob) = true ∧ (prob <=? 0.95) = true).
Proof.
  cbv beta zeta delta [Main.compute_risk Main.risk_score Py.geb].
  split_thresholds; vm_compute; tauto.
Qed.

(** The same case split, for the probability that the endpoint returns. *)
Lemma compute_risk_rounded_range (bp heart_rate sugar bmi : float) :
  let prob := (Main.compute_risk bp heart_rate sugar bmi).2 in
  (0.01 <=? prob) && (prob <=? 0.99)
  && (0.01 <=? Py.round prob 3) && (Py.round prob 3 <=? 0.99) = true.
Proof.
  cbv beta zeta delta [Main.compute_risk Main.risk_score Py.geb].
  split_thresholds; vm_compute; reflexivity.
Qed.

(** The clamp of [compute_risk] puts any float, NaN included, in range. *)
Lemma clamp_range (x : float) :
  let prob := Py.max 0.01 (Py.min 0.99 x) in
  (0.01 <=? prob) = true ∧ (prob <=? 0.99) = true.
Proof.
  unfold Py.max, Py.min, Py.gtb.
  destruct (x <? 0.99) eqn:Hhi; [destruct (0.01 <? x) eqn:Hlo|];
    auto using ltb_leb.
Qed.

Lemma risk_band_range (score : float) :
  (0.01 <=? (Main.risk_band score).2) = true
  ∧ ((Main.risk_band score).2 <=? 0.99) = true.
Proof.
  unfold Main.risk_band.
  destruct (score <=? 2); [|destruct (score <=? 4)]; apply clamp_range.
Qed.

(** C2 (counterexample): on bp=80, heart_rate=60, glucose=70, bmi=22 the
    score is 0.5, not 0, and the probability 0.2, not 0.15: the test
    [bp <= 90] of the blood-pressure rule holds at 80. *)
Lemma C2_score_is_half_at_bp_80 :
  Main.risk_score 80 60 70 22 = 0.5
  ∧ Main.compute_risk 80 60 70 22 = ("Low", 0.2)
  ∧ (0.5 =? 0) = false ∧ (0.2 =? 0.15) = false.
Proof. repeat split. Qed.

(** C2 (amended): with heart_rate=60, glucose=70 and bmi=22, every bp at
    most 90 (80 is one) scores 0.5 and gives Low with probability 0.2; the
    score is 0, and the probability 0.15, for every bp strictly between 90
    and 140. *)
Theorem C2_low_and_normal_bp (bp : float) :
  ((bp <=? 90) = true →
     Main.risk_score bp 60 70 22 = 0.5
     ∧ Main.compute_risk bp 60 70 22 = ("Low", 0.2))
  ∧ ((90 <? bp) = true → (bp <? 140) = true →
     Main.risk_score bp 60 70 22 = 0
     ∧ Main.compute_risk bp 60 70 22 = ("Low", 0.15)).
Proof.
  assert (Hge : ∀ t, (140 <=? t) = true → (bp <? 140) = true → (t <=? bp) = false).
  { intros t Ht Hbp. destruct (t <=? bp) eqn:E; [|done].
    rewrite (leb_not_ltb _ _ (leb_trans _ _ _ Ht E)) in Hbp. done. }
  split.
  - intros Hbp.
    assert (Hlt : (bp <? 140) = true).
    { destruct (bp <? 140) eqn:E; [done|].
      apply not_ltb_leb in E; [|by eapply leb_number_l|done].
      pose proof (leb_trans _ _ _ E Hbp) as F. by vm_compute in F. }
    cbv beta zeta delta [Main.compute_risk Main.risk_score Py.geb].
    rewrite (Hge 180), (Hge 160), (Hge 140), Hbp by done. by vm_compute.
  - intros Hlo Hhi.
    cbv beta zeta delta [Main.compute_risk Main.risk_score Py.geb].
    rewrite (Hge 180), (Hge 160), (Hge 140) by done.
    destruct (bp <=? 90) eqn:E.
    + by rewrite (leb_not_ltb _ _ E) in Hlo.
    + by vm_compute.
Qed.

Lemma C2_low_and_normal_bp_witness :
  Main.compute_risk 80 60 70 22 = ("Low", 0.2)
  ∧ Main.compute_risk 120 60 70 22 = ("Low", 0.15).
Proof.
  split.
  - exact (proj2 (proj1 (C2_low_and_normal_bp 80) eq_refl)).
  - exact (proj2 (proj2 (C2_low_and_normal_bp 120) eq_refl eq_refl)).
Defined.

(** C5 (counterexample): at score 4.0 the Medium branch gives
    0.45 + 0.1 * 2 = 0.65, not 0.70; the High branch starts at 0.70. *)
Lemma C5_medium_branch_at_4 :
  Main.medium_prob 4 = 0.65
  ∧ Main.risk_band 4 = ("Medium", 0.65)
  ∧ Main.compute_risk 140 70 180 22 = ("Medium", 0.65)
  ∧ Main.high_prob 4 = 0.7
  ∧ (0.65 =? 0.7) = false.
Proof. repeat split. Qed.

(** C5 (amended): the mapping steps up at both boundaries.  At score 2.0
    the Low branch gives 0.35 and the Medium branch 0.45; at score 4.0 the
    Medium branch gives 0.65 and the High branch 0.70.  Over all inputs, a
    Low result has probability at most 0.35, a Medium one between 0.5 and
    0.65, a High one at least 0.725. *)
Theorem C5_steps_at_both_boundaries :
  Main.risk_band 2 = ("Low", 0.35)
  ∧ Main.low_prob 2 = 0.35 ∧ Main.medium_prob 2 = 0.45
  ∧ Main.risk_band 4 = ("Medium", 0.65)
  ∧ Main.medium_prob 4 = 0.65 ∧ Main.high_prob 4 = 0.7
  ∧ ∀ bp heart_rate sugar bmi,
      let '(label, prob) := Main.compute_risk bp heart_rate sugar bmi in
      (label = "Low" ∧ (0.15 <=? prob) = true ∧ (prob <=? 0.35) = true) ∨
      (label = "Medium" ∧ (0.5 <=? prob) = true ∧ (prob <=? 0.65) = true) ∨
      (label = "High" ∧ (0.725 <=? prob) = true ∧ (prob <=? 0.95) = true).
Proof. repeat split. apply compute_risk_bands. Qed.

End Scorer.

(** ** The bucketizer *)

Section Bucketizer.

Local Open Scope float_scope.

(** C7: [bucketize] answers Low below 0.33, Medium from 0.33 (included) up
    to 0.66 (excluded) and High from 0.66 on; every probability in [0, 1]
    is in one of the three cases; the six boundary examples. *)
Theorem C7_bucketize_bands (prob : float) :
  ((prob <? 0.33) = true → App.bucketize prob = "Low")
  ∧ ((0.33 <=? prob) = true → (prob <? 0.66) = true → App.bucketize prob = "Medium")
  ∧ ((0.66 <=? prob) = true → App.bucketize prob = "High")
  ∧ ((0 <=? prob) = true → (prob <=? 1) = true →
       (prob <? 0.33) = true
       ∨ ((0.33 <=? prob) = true ∧ (prob <? 0.66) = true)
       ∨ (0.66 <=? prob) = true)
  ∧ App.bucketize 0.329 = "Low" ∧ App.bucketize 0.33 = "Medium"
  ∧ App.bucketize 0.659 = "Medium" ∧ App.bucketize 0.66 = "High"
  ∧ App.bucketize 1.0 = "High" ∧ App.bucketize 0.0 = "Low".
Proof.
  unfold App.bucketize. repeat split.
  - by intros ->.
  - intros Hlo ->. by rewrite (leb_not_ltb _ _ Hlo).
  - intros Hhi. rewrite (leb_not_ltb _ _ Hhi).
    by rewrite (leb_not_ltb _ _ (leb_trans 0.33 0.66 prob eq_refl Hhi)).
  - intros Hnum _.
    destruct (prob <? 0.33) eqn:E1; [by left|right].
    apply not_ltb_leb in E1; [|by eapply leb_number_r|done].
    destruct (prob <? 0.66) eqn:E2; [by left|right].
    apply not_ltb_leb in E2; [done|by eapply leb_number_r|done].
Qed.

Lemma C7_bucketize_bands_witness :
  App.bucketize 0.2 = "Low" ∧ App.bucketize 0.5 = "Medium" ∧ App.bucketize 0.9 = "High".
Proof.
  split; [|split].
  - exact (proj1 (C7_bucketize_bands 0.2) eq_refl).
  - exact (proj1 (proj2 (C7_bucketize_bands 0.5)) eq_refl eq_refl).
  - exact (proj1 (proj2 (proj2 (C7_bucketize_bands 0.9))) eq_refl).
Defined.

End Bucketizer.

(** ** Rounding *)

Section Rounding.

Local Open Scope float_scope.

Lemma digits2_pos_bound (m : positive) : (Zpos m < 2 ^ Zpos (digits2_pos m))%Z.
Proof.
  induction m as [m IH|m IH|]; simpl digits2_pos;
    rewrite ?Pos2Z.inj_succ, ?Z.pow_succ_r by lia; lia.
Qed.

Lemma div_half_even_bounds (p q n : Z) :
  (0 < q)%Z → (0 ≤ p ≤ n * q)%Z → (0 ≤ Py.div_half_even p q ≤ n)%Z.
Proof.
  intros Hq Hp. unfold Py.div_half_even.
  pose proof (Z.div_mod p q ltac:(lia)) as Hdm.
  pose proof (Z.mod_pos_bound p q Hq) as Hm.
  assert (0 ≤ p / q)%Z by (apply Z.div_pos; lia).
  assert (p / q ≤ n)%Z by (apply Z.div_le_upper_bound; lia).
  destruct (Z.compare_spec (2 * (p mod q)) q); [destruct (Z.even (p / q))| |]; nia.
Qed.

(** Every decimal [k / 10^4] with [0 <= k <= 10^4] reads back as a float
    in [0, 1]: checked on each of them. *)
Lemma four_decimals_in_unit (k : Z) :
  (0 ≤ k ≤ 10000)%Z →
  (0 <=? Py.binary64_of_ratio k 10000) = true
  ∧ (Py.binary64_of_ratio k 10000 <=? 1) = true.
Proof.
  intros Hk.
  assert (Hall : forallb (λ k, (0 <=? Py.binary64_of_ratio k 10000)
                               && (Py.binary64_of_ratio k 10000 <=? 1))
                         (seqZ 0 10001) = true) by (vm_compute; reflexivity).
  rewrite forallb_forall in Hall.
  apply andb_prop, Hall, list_elem_of_In, elem_of_seqZ. lia.
Qed.

(** A valid float in [0, 1] is zero or [m * 2^e] with [m <= 2^(-e)]. *)
Lemma unit_interval_mantissa (x : float) (s : bool) (m : positive) (e : Z) :
  Prim2SF x = S754_finite s m e →
  (0 <=? x) = true → (x <=? 1) = true →
  s = false ∧ (e < 0)%Z ∧ (Zpos m ≤ 2 ^ (- e))%Z.
Proof.
  intros E. pose proof (Prim2SF_valid x) as V. rewrite E in V.
  rewrite !leb_spec, E.
  change (Prim2SF 0) with (S754_zero false).
  change (Prim2SF 1) with (S754_finite false 4503599627370496 (-52)).
  cbv beta iota delta [SFleb SFcompare]. destruct s; [done|]. intros _ Hle.
  split; [done|].
  apply andb_prop in V as [V _].
  unfold canonical_mantissa, fexp, SpecFloat.emin, prec, emax in V.
  apply Z.eqb_eq in V. pose proof (digits2_pos_bound m) as Hm.
  destruct (Z.compare_spec e (-52)) as [->| |]; [| |done].
  - change (Pos.compare_cont Eq) with Pos.compare in Hle.
    change (2 ^ (- (-52)))%Z with 4503599627370496%Z.
    clear V Hm E.
    destruct (Pos.compare_spec m 4503599627370496) as [Heq|Hlt|Hgt].
    + split; [reflexivity|]. rewrite Heq. apply Z.le_refl.
    + split; [reflexivity|]. apply Z.lt_le_incl. exact Hlt.
    + discriminate Hle.
  - split; [lia|].
    assert (Zpos (digits2_pos m) ≤ - e)%Z by lia.
    pose proof (Z.pow_le_mono_r 2 (Zpos (digits2_pos m)) (- e)). lia.
Qed.

(** [round(x, 4)] keeps a probability in [0, 1] there. *)
Lemma round_unit_interval (x : float) :
  (0 <=? x) = true → (x <=? 1) = true →
  (0 <=? Py.round x 4) = true ∧ (Py.round x 4 <=? 1) = true.
Proof.
  intros H0 H1. unfold Py.round.
  destruct (Prim2SF x) as [| | |s m e] eqn:E; [done..|].
  destruct (unit_interval_mantissa x s m e E H0 H1) as (-> & He & Hm).
  change (10 ^ 4)%Z with 10000%Z.
  apply four_decimals_in_unit. unfold Py.scaled_half_even.
  replace (0 <=? - e)%Z with true by (symmetry; apply Z.leb_le; lia).
  apply div_half_even_bounds; lia.
Qed.

End Rounding.

(** ** The two endpoints *)

Section Endpoints.

Local Open Scope float_scope.

Variable float_of_str : string → option float.

Local Abbreviation coerces payload k x := (py_float float_of_str (get payload k) = Ok x).

Lemma coerces_present (payload : dict) (k : string) (x : float) :
  coerces payload k x →
  ∃ v, payload !! k = Some v ∧ py_float float_of_str v = Ok x.
Proof.
  unfold get, get_or. destruct (payload !! k) as [v|]; [eauto|discriminate].
Qed.

Lemma or_else_dict (d : dict) : or_else (JDict d) (JDict ∅) = JDict d.
Proof.
  unfold or_else, truthy. case_bool_decide; [subst|]; reflexivity.
Qed.

Lemma absent_keys_dict (d : dict) (keys : list string) :
  App.absent_keys (JDict d) keys = Ok (filter (λ k, d !! k = None) keys).
Proof.
  induction keys as [|k keys IH]; [reflexivity|].
  cbn [App.absent_keys App.contains]. rewrite IH. unfold mbind, result_bind.
  rewrite filter_cons. case_bool_decide as Hk; case_decide as Hn; try reflexivity.
  - rewrite Hn in Hk. by destruct Hk.
  - destruct (d !! k); [destruct Hk; eauto|done].
Qed.

(** The rule-based endpoint on a request with four vitals that convert. *)
Lemma main_predict_valid (payload : dict) (bp heart_rate sugar bmi : float) :
  coerces payload "bp" bp → coerces payload "heart_rate" heart_rate →
  coerces payload "sugar" sugar → coerces payload "bmi" bmi →
  Main.predict float_of_str (Some (JDict payload))
  = Response
      (JDict {[ "risk" := JStr (Main.compute_risk bp heart_rate sugar bmi).1;
                "probability" :=
                  JFloat (Py.round (Main.compute_risk bp heart_rate sugar bmi).2 3);
                "inputs" := JDict {[ "bp" := JFloat bp;
                                     "heart_rate" := JFloat heart_rate;
                                     "sugar" := JFloat sugar;
                                     "bmi" := JFloat bmi ]} ]})
      200.
Proof.
  intros H1 H2 H3 H4. unfold Main.predict, Main.assess, Main._to_float.
  rewrite H1, H2, H3, H4. unfold mbind, result_bind.
  by destruct (Main.compute_risk bp heart_rate sugar bmi).
Qed.

(** The model-backed endpoint on such a request, when the artifact answers. *)
Lemma app_predict_valid (model : App.artifact) (payload : dict)
    (bp heart_rate sugar bmi proba : float) :
  coerces payload "bp" bp → coerces payload "heart_rate" heart_rate →
  coerces payload "sugar" sugar → coerces payload "bmi" bmi →
  model bp heart_rate sugar bmi = Ok proba →
  App.predict float_of_str (Some model) (Some (JDict payload))
  = Ok (Response
          (JDict {[ "risk" := JStr (App.bucketize proba);
                    "probability" := JFloat (Py.round proba 4) ]})
          200).
Proof.
  intros (v1 & P1 & H1)%coerces_present (v2 & P2 & H2)%coerces_present
         (v3 & P3 & H3)%coerces_present (v4 & P4 & H4)%coerces_present Hm.
  unfold App.predict.
  change (default JNull (Some (JDict payload))) with (JDict payload).
  rewrite or_else_dict, absent_keys_dict. unfold App.required. rewrite !filter_cons, filter_nil.
  rewrite !decide_False by congruence.
  unfold mbind at 1, result_bind at 1. rewrite bool_decide_false by auto.
  unfold App.coerce, App.subscript. rewrite P1, P2, P3, P4.
  unfold mbind, result_bind. rewrite H1, H2, H3, H4, Hm. reflexivity.
Qed.

(** With an artifact loaded, a dict that lacks a required key is answered
    with the list of all the keys it lacks, before the artifact is called. *)
Lemma app_predict_missing (model : App.artifact) (payload : dict) :
  let missing := filter (λ k, payload !! k = None) App.required in
  missing ≠ [] →
  App.predict float_of_str (Some model) (Some (JDict payload))
  = Ok (Response (error_body ("Missing fields: " +:+ String.concat ", " missing)) 400).
Proof.
  intros missing Hne. unfold App.predict.
  change (default JNull (Some (JDict payload))) with (JDict payload).
  rewrite or_else_dict, absent_keys_dict. fold missing.
  unfold mbind, result_bind. by rewrite bool_decide_true.
Qed.

(** Membership of a literal key in [required]. *)
Ltac in_required :=
  unfold App.required; rewrite !elem_of_cons; tauto.

Lemma py_float_outcomes (v : json) :
  (∃ x, py_float float_of_str v = Ok x) ∨ not_a_number float_of_str v
  ∨ py_float float_of_str v = Raise OverflowError.
Proof.
  unfold not_a_number.
  destruct v as [|b|z|f|s|l|d]; cbn [py_float]; eauto;
    [destruct (Py.float_of_int z)|destruct (float_of_str s)]; eauto.
Qed.

Lemma first_invalid_exists (payload : dict) :
  (∃ k, k ∈ App.required ∧ not_a_number float_of_str (get payload k)) →
  (∀ k, k ∈ App.required → py_float float_of_str (get payload k) ≠ Raise OverflowError) →
  ∃ i k, first_invalid float_of_str payload i k.
Proof.
  intros (k & Hk & Hbad) Hov. unfold first_invalid.
  assert (Hcl : ∀ k, k ∈ App.required →
            (∃ x, coerces payload k x) ∨ not_a_number float_of_str (get payload k)).
  { intros k' Hk'. destruct (py_float_outcomes (get payload k')) as [?|[?|?]]; auto.
    by destruct (Hov k' Hk'). }
  destruct (Hcl "bp") as [H0|H0]; [in_required| |].
  2:{ exists 0%nat, "bp". repeat split; [done|lia]. }
  destruct (Hcl "heart_rate") as [H1|H1]; [in_required| |].
  2:{ exists 1%nat, "heart_rate". repeat split; [done|].
      intros [|j] k' Hj Hl; simplify_eq/=; [done|lia]. }
  destruct (Hcl "sugar") as [H2|H2]; [in_required| |].
  2:{ exists 2%nat, "sugar". repeat split; [done|].
      intros [|[|j]] k' Hj Hl; simplify_eq/=; [done|done|lia]. }
  destruct (Hcl "bmi") as [H3|H3]; [in_required| |].
  2:{ exists 3%nat, "bmi". repeat split; [done|].
      intros [|[|[|j]]] k' Hj Hl; simplify_eq/=; [done|done|done|lia]. }
  exfalso. unfold not_a_number in Hbad.
  destruct H0 as [? H0], H1 as [? H1], H2 as [? H2], H3 as [? H3].
  unfold App.required in Hk. rewrite !elem_of_cons, elem_of_nil in Hk.
  destruct Hk as [->|[->|[->|[->|[]]]]]; destruct Hbad; congruence.
Qed.

(** The rule-based endpoint names the first key whose value is absent or
    not a number. *)
Lemma main_predict_first_invalid (payload : dict) (i : nat) (k : string) :
  first_invalid float_of_str payload i k →
  Main.predict float_of_str (Some (JDict payload))
  = Response (error_body ("'" +:+ k +:+ "' must be a number")) 400.
Proof.
  intros (Hi & Hbad & Hbefore).
  unfold Main.predict, Main.assess, Main._to_float.
  destruct i as [|[|[|[|i]]]]; simplify_eq/=.
  - by destruct Hbad as [->| ->].
  - destruct (Hbefore 0%nat "bp") as [? ->]; [lia|done|].
    by destruct Hbad as [->| ->].
  - destruct (Hbefore 0%nat "bp") as [? ->]; [lia|done|].
    destruct (Hbefore 1%nat "heart_rate") as [? ->]; [lia|done|].
    by destruct Hbad as [->| ->].
  - destruct (Hbefore 0%nat "bp") as [? ->]; [lia|done|].
    destruct (Hbefore 1%nat "heart_rate") as [? ->]; [lia|done|].
    destruct (Hbefore 2%nat "sugar") as [? ->]; [lia|done|].
    by destruct Hbad as [->| ->].
Qed.

(** The model-backed endpoint, when no key is absent, answers a value that
    is not a number with the same error for every artifact. *)
Lemma app_predict_first_invalid (model : App.artifact) (payload : dict)
    (i : nat) (k : string) :
  filter (λ k, payload !! k = None) App.required = [] →
  first_invalid float_of_str payload i k →
  App.predict float_of_str (Some model) (Some (JDict payload))
  = Ok (Response (error_body "All fields must be numbers") 400).
Proof.
  intros Hnone (Hi & Hbad & Hbefore). unfold App.predict.
  change (default JNull (Some (JDict payload))) with (JDict payload).
  rewrite or_else_dict, absent_keys_dict, Hnone.
  unfold mbind at 1, result_bind at 1. rewrite bool_decide_false by auto.
  assert (Hsub : ∀ k', k' ∈ App.required →
            App.subscript (JDict payload) k' = Ok (get payload k')).
  { intros k' Hk'. unfold App.subscript, get, get_or.
    destruct (payload !! k') eqn:E; [done|].
    assert (k' ∈ filter (λ k, payload !! k = None) App.required)
      by by apply list_elem_of_filter.
    rewrite Hnone in *. by apply elem_of_nil in H. }
  unfold App.coerce.
  rewrite (Hsub "bp"), (Hsub "heart_rate"), (Hsub "sugar"), (Hsub "bmi")
    by in_required.
  unfold mbind, result_bind.
  destruct i as [|[|[|[|i]]]]; simplify_eq/=.
  - by destruct Hbad as [->| ->].
  - destruct (Hbefore 0%nat "bp") as [? ->]; [lia|done|].
    by destruct Hbad as [->| ->].
  - destruct (Hbefore 0%nat "bp") as [? ->]; [lia|done|].
    destruct (Hbefore 1%nat "heart_rate") as [? ->]; [lia|done|].
    by destruct Hbad as [->| ->].
  - destruct (Hbefore 0%nat "bp") as [? ->]; [lia|done|].
    destruct (Hbefore 1%nat "heart_rate") as [? ->]; [lia|done|].
    destruct (Hbefore 2%nat "sugar") as [? ->]; [lia|done|].
    by destruct Hbad as [->| ->].
Qed.

(** Every key converts, or a first one fails: as a value that is not a
    number, or as an integer too large for a float. *)
Lemma first_failure_cases (payload : dict) :
  (∃ bp heart_rate sugar bmi,
     coerces payload "bp" bp ∧ coerces payload "heart_rate" heart_rate
     ∧ coerces payload "sugar" sugar ∧ coerces payload "bmi" bmi)
  ∨ (∃ i k, first_invalid float_of_str payload i k)
  ∨ (∃ i k, first_overflow float_of_str payload i k).
Proof.
  unfold first_invalid, first_overflow.
  destruct (py_float_outcomes (get payload "bp")) as [[bp H0]|[H0|H0]].
  2:{ right; left. exists 0%nat, "bp". repeat split; [done|lia]. }
  2:{ right; right. exists 0%nat, "bp". repeat split; [done|lia]. }
  assert (B1 : ∀ j k', (j < 1)%nat → App.required !! j = Some k' →
                       ∃ x, coerces payload k' x).
  { intros [|j] k' Hj Hl; simplify_eq/=; [by eexists|lia]. }
  destruct (py_float_outcomes (get payload "heart_rate")) as [[hr H1]|[H1|H1]].
  2:{ right; left. by exists 1%nat, "heart_rate". }
  2:{ right; right. by exists 1%nat, "heart_rate". }
  assert (B2 : ∀ j k', (j < 2)%nat → App.required !! j = Some k' →
                       ∃ x, coerces payload k' x).
  { intros [|[|j]] k' Hj Hl; simplify_eq/=; [by eexists|by eexists|lia]. }
  destruct (py_float_outcomes (get payload "sugar")) as [[sugar H2]|[H2|H2]].
  2:{ right; left. by exists 2%nat, "sugar". }
  2:{ right; right. by exists 2%nat, "sugar". }
  assert (B3 : ∀ j k', (j < 3)%nat → App.required !! j = Some k' →
                       ∃ x, coerces payload k' x).
  { intros [|[|[|j]]] k' Hj Hl; simplify_eq/=; [by eexists|by eexists|by eexists|lia]. }
  destruct (py_float_outcomes (get payload "bmi")) as [[bmi H3]|[H3|H3]].
  2:{ right; left. by exists 3%nat, "bmi". }
  2:{ right; right. by exists 3%nat, "bmi". }
  left. by exists bp, hr, sugar, bmi.
Qed.

(** The rule-based endpoint answers 500 when the first key that fails is
    an integer too large for a float. *)
Lemma main_predict_first_overflow (payload : dict) (i : nat) (k : string) :
  first_overflow float_of_str payload i k →
  Main.predict float_of_str (Some (JDict payload))
  = Response (error_body "Prediction failed") 500.
Proof.
  intros (Hi & Hbad & Hbefore).
  unfold Main.predict, Main.assess, Main._to_float.
  destruct i as [|[|[|[|i]]]]; simplify_eq/=.
  - by rewrite Hbad.
  - destruct (Hbefore 0%nat "bp") as [? ->]; [lia|done|]. by rewrite Hbad.
  - destruct (Hbefore 0%nat "bp") as [? ->]; [lia|done|].
    destruct (Hbefore 1%nat "heart_rate") as [? ->]; [lia|done|]. by rewrite Hbad.
  - destruct (Hbefore 0%nat "bp") as [? ->]; [lia|done|].
    destruct (Hbefore 1%nat "heart_rate") as [? ->]; [lia|done|].
    destruct (Hbefore 2%nat "sugar") as [? ->]; [lia|done|]. by rewrite Hbad.
Qed.

(** The model-backed endpoint, when no key is absent, lets the
    [OverflowError] of the first key that fails escape. *)
Lemma app_predict_first_overflow (model : App.artifact) (payload : dict)
    (i : nat) (k : string) :
  filter (λ k, payload !! k = None) App.required = [] →
  first_overflow float_of_str payload i k →
  App.predict float_of_str (Some model) (Some (JDict payload)) = Raise OverflowError.
Proof.
  intros Hnone (Hi & Hbad & Hbefore). unfold App.predict.
  change (default JNull (Some (JDict payload))) with (JDict payload).
  rewrite or_else_dict, absent_keys_dict, Hnone.
  unfold mbind at 1, result_bind at 1. rewrite bool_decide_false by auto.
  assert (Hsub : ∀ k', k' ∈ App.required →
            App.subscript (JDict payload) k' = Ok (get payload k')).
  { intros k' Hk'. unfold App.subscript, get, get_or.
    destruct (payload !! k') eqn:E; [done|].
    assert (k' ∈ filter (λ k, payload !! k = None) App.required)
      by by apply list_elem_of_filter.
    rewrite Hnone in *. by apply elem_of_nil in H. }
  unfold App.coerce.
  rewrite (Hsub "bp"), (Hsub "heart_rate"), (Hsub "sugar"), (Hsub "bmi")
    by in_required.
  unfold mbind, result_bind.
  destruct i as [|[|[|[|i]]]]; simplify_eq/=.
  - by rewrite Hbad.
  - destruct (Hbefore 0%nat "bp") as [? ->]; [lia|done|]. by rewrite Hbad.
  - destruct (Hbefore 0%nat "bp") as [? ->]; [lia|done|].
    destruct (Hbefore 1%nat "heart_rate") as [? ->]; [lia|done|]. by rewrite Hbad.
  - destruct (Hbefore 0%nat "bp") as [? ->]; [lia|done|].
    destruct (Hbefore 1%nat "heart_rate") as [? ->]; [lia|done|].
    destruct (Hbefore 2%nat "sugar") as [? ->]; [lia|done|]. by rewrite Hbad.
Qed.

End Endpoints.

(** ** Claims on the two endpoints *)

Section EndpointClaims.

Local Open Scope float_scope.

(** C1 (counterexample): the model-backed endpoint does not clamp.  An
    artifact that answers 0.0, or 1.0, gets that very probability
    returned, outside [0.01, 0.99]. *)
Lemma C1_model_probability_unclamped :
  App.predict Examples.no_literal (Some (Examples.constant_model 0))
              (Some (JDict Examples.four_vitals))
  = Ok (Response (JDict {[ "risk" := JStr "Low"; "probability" := JFloat 0 ]}) 200)
  ∧ (0 <? 0.01) = true
  ∧ App.predict Examples.no_literal (Some (Examples.constant_model 1))
                (Some (JDict Examples.four_vitals))
    = Ok (Response (JDict {[ "risk" := JStr "High"; "probability" := JFloat 1 ]}) 200)
  ∧ (0.99 <? 1) = true.
Proof. repeat split; vm_compute; reflexivity. Qed.

(** C1 (amended): on a request whose four vitals convert, the rule-based
    endpoint answers 200 with a probability in [0.01, 0.99], before and
    after rounding to 3 decimals.  The model-backed endpoint answers 200
    with the artifact's probability rounded to 4 decimals and not clamped;
    it is in [0, 1] when the artifact's probability is. *)
Theorem C1_probability_ranges (float_of_str : string → option float)
    (payload : dict) (bp heart_rate sugar bmi : float) :
  py_float float_of_str (get payload "bp") = Ok bp →
  py_float float_of_str (get payload "heart_rate") = Ok heart_rate →
  py_float float_of_str (get payload "sugar") = Ok sugar →
  py_float float_of_str (get payload "bmi") = Ok bmi →
  (∃ risk prob,
     Main.compute_risk bp heart_rate sugar bmi = (risk, prob)
     ∧ (0.01 <=? prob) = true ∧ (prob <=? 0.99) = true
     ∧ (0.01 <=? Py.round prob 3) = true ∧ (Py.round prob 3 <=? 0.99) = true
     ∧ Main.predict float_of_str (Some (JDict payload))
       = Response
           (JDict {[ "risk" := JStr risk;
                     "probability" := JFloat (Py.round prob 3);
                     "inputs" := JDict {[ "bp" := JFloat bp;
                                          "heart_rate" := JFloat heart_rate;
                                          "sugar" := JFloat sugar;
                                          "bmi" := JFloat bmi ]} ]})
           200)
  ∧ ∀ (model : App.artifact) (proba : float),
      model bp heart_rate sugar bmi = Ok proba →
      App.predict float_of_str (Some model) (Some (JDict payload))
      = Ok (Response
              (JDict {[ "risk" := JStr (App.bucketize proba);
                        "probability" := JFloat (Py.round proba 4) ]})
              200)
      ∧ ((0 <=? proba) = true → (proba <=? 1) = true →
         (0 <=? Py.round proba 4) = true ∧ (Py.round proba 4 <=? 1) = true).
Proof.
  intros H1 H2 H3 H4. split.
  - pose proof (compute_risk_rounded_range bp heart_rate sugar bmi) as Hr.
    pose proof (main_predict_valid float_of_str payload _ _ _ _ H1 H2 H3 H4) as Hp.
    destruct (Main.compute_risk bp heart_rate sugar bmi) as [risk prob].
    cbn [fst snd] in Hr, Hp. cbv zeta in Hr.
    apply andb_prop in Hr as [Hr Hd]. apply andb_prop in Hr as [Hr Hc].
    apply andb_prop in Hr as [Ha Hb].
    by exists risk, prob.
  - intros model proba Hm. split.
    + by apply app_predict_valid with bp heart_rate sugar bmi.
    + apply round_unit_interval.
Qed.

Lemma C1_probability_ranges_witness :
  Main.predict Examples.no_literal (Some (JDict Examples.four_vitals))
  = Response
      (JDict {[ "risk" := JStr "Low";
                "probability" := JFloat 0.15;
                "inputs" := JDict {[ "bp" := JFloat 120; "heart_rate" := JFloat 70;
                                     "sugar" := JFloat 100; "bmi" := JFloat 24 ]} ]})
      200
  ∧ App.predict Examples.no_literal (Some (Examples.constant_model 0.5))
                (Some (JDict Examples.four_vitals))
    = Ok (Response (JDict {[ "risk" := JStr "Medium"; "probability" := JFloat 0.5 ]}) 200).
Proof.
  destruct (C1_probability_ranges Examples.no_literal Examples.four_vitals
              120 70 100 24 eq_refl eq_refl eq_refl eq_refl)
    as [(risk & prob & Hc & _ & _ & _ & _ & Hp) Hm].
  split.
  - rewrite Hp. vm_compute in Hc. injection Hc as <- <-. reflexivity.
  - exact (proj1 (Hm (Examples.constant_model 0.5) 0.5 eq_refl)).
Defined.

(** C6 (counterexample): the model-backed endpoint rounds to 4 decimals;
    0.12345 is returned as 0.1235, and rounded to 3 decimals it is 0.123. *)
Lemma C6_model_rounds_to_4_decimals :
  App.predict Examples.no_literal (Some (Examples.constant_model 0.12345))
              (Some (JDict Examples.four_vitals))
  = Ok (Response (JDict {[ "risk" := JStr "Low"; "probability" := JFloat 0.1235 ]}) 200)
  ∧ Py.round 0.12345 3 = 0.123
  ∧ (0.1235 =? 0.123) = false.
Proof. repeat split; vm_compute; reflexivity. Qed.

(** C6 (amended): the probability of the response is the computed one
    rounded to 3 decimals by the rule-based endpoint, and to 4 decimals by
    the model-backed endpoint. *)
Theorem C6_rounding_digits (float_of_str : string → option float)
    (payload : dict) (bp heart_rate sugar bmi : float) :
  py_float float_of_str (get payload "bp") = Ok bp →
  py_float float_of_str (get payload "heart_rate") = Ok heart_rate →
  py_float float_of_str (get payload "sugar") = Ok sugar →
  py_float float_of_str (get payload "bmi") = Ok bmi →
  Main.predict float_of_str (Some (JDict payload))
  = Response
      (JDict {[ "risk" := JStr (Main.compute_risk bp heart_rate sugar bmi).1;
                "probability" :=
                  JFloat (Py.round (Main.compute_risk bp heart_rate sugar bmi).2 3);
                "inputs" := JDict {[ "bp" := JFloat bp;
                                     "heart_rate" := JFloat heart_rate;
                                     "sugar" := JFloat sugar;
                                     "bmi" := JFloat bmi ]} ]})
      200
  ∧ ∀ (model : App.artifact) (proba : float),
      model bp heart_rate sugar bmi = Ok proba →
      App.predict float_of_str (Some model) (Some (JDict payload))
      = Ok (Response
              (JDict {[ "risk" := JStr (App.bucketize proba);
                        "probability" := JFloat (Py.round proba 4) ]})
              200).
Proof.
  intros H1 H2 H3 H4. split.
  - by apply main_predict_valid.
  - intros model proba Hm. by apply app_predict_valid with bp heart_rate sugar bmi.
Qed.

(** A heart rate of 100 alone scores 1.5: the probability 0.15 + 0.1 * 1.5
    is computed as 0.30000000000000004 and returned as 0.3. *)
Lemma C6_rounding_digits_witness :
  Main.compute_risk 120 100 100 24 = ("Low", 0.30000000000000004)
  ∧ Main.predict Examples.no_literal (Some (JDict Examples.fast_pulse))
    = Response
        (JDict {[ "risk" := JStr "Low";
                  "probability" := JFloat 0.3;
                  "inputs" := JDict {[ "bp" := JFloat 120; "heart_rate" := JFloat 100;
                                       "sugar" := JFloat 100; "bmi" := JFloat 24 ]} ]})
        200.
Proof.
  split; [reflexivity|].
  rewrite (proj1 (C6_rounding_digits Examples.no_literal Examples.fast_pulse 120 100 100 24
                    eq_refl eq_refl eq_refl eq_refl)).
  vm_compute. reflexivity.
Defined.

End EndpointClaims.

(** ** Claims on validation *)

Section ValidationClaims.

Local Open Scope float_scope.

(** C3 (counterexample): on {bp: 120, heart_rate: 70} the rule-based
    endpoint answers "'sugar' must be a number": not a list of the missing
    fields, and no mention of bmi. *)
Lemma C3_rule_based_names_first_key_only :
  Main.predict Examples.no_literal (Some (JDict Examples.two_vitals))
  = Response (error_body "'sugar' must be a number") 400
  ∧ App.is_substring "bmi" "'sugar' must be a number" = false
  ∧ App.is_substring "Missing" "'sugar' must be a number" = false.
Proof. repeat split; vm_compute; reflexivity. Qed.

(** C3 (amended): with an artifact loaded, the model-backed endpoint
    answers a dict that lacks required keys with "Missing fields: " and all
    the keys it lacks, in the order bp, heart_rate, sugar, bmi.  The
    rule-based endpoint has no such error: an absent key counts as a value
    that is not a number.  It converts the four keys in that order and the
    first one that fails decides: absent or not a number, the answer (400)
    names that key alone; an integer too large for a float, the answer is
    500 "Prediction failed".  One of the three holds of every dict: the four
    keys convert, or the first failure is of the one kind or of the other. *)
Theorem C3_missing_fields (float_of_str : string → option float) (payload : dict) :
  let missing := filter (λ k, payload !! k = None) App.required in
  (∀ k, k ∈ missing ↔ k ∈ App.required ∧ payload !! k = None)
  ∧ missing `sublist_of` App.required
  ∧ (missing ≠ [] → ∀ model : App.artifact,
       App.predict float_of_str (Some model) (Some (JDict payload))
       = Ok (Response
               (error_body ("Missing fields: " +:+ String.concat ", " missing)) 400))
  ∧ (∀ k, payload !! k = None → not_a_number float_of_str (get payload k))
  ∧ (∀ i k, first_invalid float_of_str payload i k →
       Main.predict float_of_str (Some (JDict payload))
       = Response (error_body ("'" +:+ k +:+ "' must be a number")) 400)
  ∧ (∀ i k, first_overflow float_of_str payload i k →
       Main.predict float_of_str (Some (JDict payload))
       = Response (error_body "Prediction failed") 500)
  ∧ ((∃ bp heart_rate sugar bmi,
        py_float float_of_str (get payload "bp") = Ok bp
        ∧ py_float float_of_str (get payload "heart_rate") = Ok heart_rate
        ∧ py_float float_of_str (get payload "sugar") = Ok sugar
        ∧ py_float float_of_str (get payload "bmi") = Ok bmi)
     ∨ (∃ i k, first_invalid float_of_str payload i k)
     ∨ (∃ i k, first_overflow float_of_str payload i k)).
Proof.
  intros missing. split; [|split; [|split; [|split; [|split; [|split]]]]].
  - intros k. unfold missing. rewrite list_elem_of_filter. tauto.
  - apply sublist_filter.
  - intros Hne model. by apply app_predict_missing.
  - intros k Hk. left. unfold get, get_or. by rewrite Hk.
  - intros i k. apply main_predict_first_invalid.
  - intros i k. apply main_predict_first_overflow.
  - apply first_failure_cases.
Qed.

Lemma C3_missing_fields_witness :
  App.predict Examples.no_literal (Some Examples.failing_model)
              (Some (JDict Examples.two_vitals))
  = Ok (Response (error_body "Missing fields: sugar, bmi") 400)
  ∧ Main.predict Examples.no_literal (Some (JDict Examples.two_vitals))
    = Response (error_body "'sugar' must be a number") 400
  ∧ Main.predict Examples.no_literal (Some (JDict Examples.huge_bp))
    = Response (error_body "Prediction failed") 500.
Proof.
  destruct (C3_missing_fields Examples.no_literal Examples.two_vitals)
    as (_ & _ & Happ & Habsent & Hmain & _).
  split; [|split].
  - rewrite Happ; [reflexivity|]. vm_compute. discriminate.
  - apply (Hmain 2%nat "sugar"). split; [reflexivity|]. split.
    + apply Habsent. reflexivity.
    + intros [|[|j]] k' Hj Hl; simplify_eq/=; [by exists 120%float|by exists 70%float|lia].
  - destruct (C3_missing_fields Examples.no_literal Examples.huge_bp)
      as (_ & _ & _ & _ & _ & Hhuge & _).
    apply (Hhuge 0%nat "bp"). split; [reflexivity|]. split.
    + vm_compute. reflexivity.
    + intros j k' Hj. lia.
Defined.

(** C4 (counterexample): with the model-backed strategy and no artifact
    loaded, a request with missing fields is answered "Model not loaded",
    not with the missing fields. *)
Lemma C4_model_check_comes_first :
  App.predict Examples.no_literal None (Some (JDict Examples.two_vitals))
  = Ok (Response (error_body "Model not loaded. Train first.") 500)
  ∧ filter (λ k, Examples.two_vitals !! k = None) App.required = ["sugar"; "bmi"].
Proof. split; vm_compute; reflexivity. Qed.

(** C4 (amended): the model-backed endpoint checks the artifact first;
    without one, every request is answered "Model not loaded" (500),
    whatever its fields.  With an artifact loaded, a dict with a missing key
    gets the 400 "Missing fields" whatever the artifact is.  Both endpoints
    then convert the four values in the order bp, heart_rate, sugar, bmi,
    before any scoring or inference, and the first one that fails decides.
    A value that is not a number (for the rule-based endpoint also an absent
    key) gets the validation error (400) whatever the artifact is.  An
    integer too large for a float is not handled as a validation error: the
    [OverflowError] escapes from the model-backed endpoint, and the
    rule-based one answers 500.  One of the three holds of every dict: the
    four values convert, or the first failure is of the one kind or of the
    other. *)
Theorem C4_validation_before_dispatch (float_of_str : string → option float)
    (payload : dict) :
  let missing := filter (λ k, payload !! k = None) App.required in
  (∀ request, App.predict float_of_str None request
              = Ok (Response (error_body "Model not loaded. Train first.") 500))
  ∧ (missing ≠ [] → ∀ model : App.artifact,
       App.predict float_of_str (Some model) (Some (JDict payload))
       = Ok (Response
               (error_body ("Missing fields: " +:+ String.concat ", " missing)) 400))
  ∧ (missing = [] → ∀ i k, first_invalid float_of_str payload i k →
       ∀ model : App.artifact,
         App.predict float_of_str (Some model) (Some (JDict payload))
         = Ok (Response (error_body "All fields must be numbers") 400))
  ∧ (∀ i k, first_invalid float_of_str payload i k →
       Main.predict float_of_str (Some (JDict payload))
       = Response (error_body ("'" +:+ k +:+ "' must be a number")) 400)
  ∧ (missing = [] → ∀ i k, first_overflow float_of_str payload i k →
       ∀ model : App.artifact,
         App.predict float_of_str (Some model) (Some (JDict payload))
         = Raise OverflowError)
  ∧ (∀ i k, first_overflow float_of_str payload i k →
       Main.predict float_of_str (Some (JDict payload))
       = Response (error_body "Prediction failed") 500)
  ∧ ((∃ bp heart_rate sugar bmi,
        py_float float_of_str (get payload "bp") = Ok bp
        ∧ py_float float_of_str (get payload "heart_rate") = Ok heart_rate
        ∧ py_float float_of_str (get payload "sugar") = Ok sugar
        ∧ py_float float_of_str (get payload "bmi") = Ok bmi)
     ∨ (∃ i k, first_invalid float_of_str payload i k)
     ∨ (∃ i k, first_overflow float_of_str payload i k)).
Proof.
  intros missing. split; [|split; [|split; [|split; [|split; [|split]]]]].
  - done.
  - intros Hne model. by apply app_predict_missing.
  - intros Hnone i k Hk model. by apply app_predict_first_invalid with i k.
  - intros i k. apply main_predict_first_invalid.
  - intros Hnone i k Hk model. by apply app_predict_first_overflow with i k.
  - intros i k. apply main_predict_first_overflow.
  - apply first_failure_cases.
Qed.

Lemma C4_validation_before_dispatch_witness :
  App.predict Examples.no_literal (Some Examples.failing_model)
              (Some (JDict Examples.two_vitals))
  = Ok (Response (error_body "Missing fields: sugar, bmi") 400)
  ∧ App.predict Examples.no_literal (Some Examples.failing_model)
                (Some (JDict (<["bmi" := JNull]> Examples.four_vitals)))
    = Ok (Response (error_body "All fields must be numbers") 400)
  ∧ App.predict Examples.no_literal (Some Examples.failing_model)
                (Some (JDict Examples.huge_bp))
    = Raise OverflowError.
Proof.
  split; [|split].
  - destruct (C4_validation_before_dispatch Examples.no_literal Examples.two_vitals)
      as (_ & Hmissing & _).
    rewrite Hmissing; [reflexivity|]. vm_compute. discriminate.
  - destruct (C4_validation_before_dispatch Examples.no_literal
                (<["bmi" := JNull]> Examples.four_vitals))
      as (_ & _ & Hinvalid & _).
    apply (Hinvalid ltac:(vm_compute; reflexivity) 3%nat "bmi").
    split; [reflexivity|]. split; [left; reflexivity|].
    intros [|[|[|j]]] k' Hj Hl; simplify_eq/=;
      [by exists 120%float|by exists 70%float|by exists 100%float|lia].
  - destruct (C4_validation_before_dispatch Examples.no_literal Examples.huge_bp)
      as (_ & _ & _ & _ & Hhuge & _).
    apply (Hhuge ltac:(vm_compute; reflexivity) 0%nat "bp").
    split; [reflexivity|]. split; [vm_compute; reflexivity|].
    intros j k' Hj. lia.
Defined.

End ValidationClaims.

(** ** Claims on the report content *)

Section ReportClaims.

Local Set Default Proof Using "Type".

Variable container_repr : json → string.
Variable generated : string.
Variable Paragraph : json → bool.
Variable Table : list (list string) → bool.
Variable build : App.report → bool.

Local Abbreviation _build_pdf :=
  (App._build_pdf container_repr generated Paragraph Table build).

Lemma mapM_table_rows (readings : list dict) :
  mapM (λ r, match r with
             | JDict d => Some (App.table_row container_repr d)
             | _ => None
             end) (JDict <$> readings)
  = Some (App.table_row container_repr <$> readings).
Proof.
  apply mapM_Some. induction readings as [|r readings IH]; constructor; done.
Qed.

Lemma table_data_of_dicts (data : dict) (readings : list dict) :
  data !! "readings" = Some (JList (JDict <$> readings)) →
  App.table_data container_repr data
  = Some (App.table_header :: (App.table_row container_repr <$> take 5 readings)).
Proof.
  intros Hr. unfold App.table_data, get, get_or. rewrite Hr.
  assert (or_else (JList (JDict <$> readings)) (JList [])
          = JList (JDict <$> readings)) as -> by by destruct readings.
  by rewrite <- fmap_take, mapM_table_rows.
Qed.

Lemma forallb_fmap_JStr (lines : list string) :
  forallb Paragraph (JStr <$> lines) = forallb (λ line, Paragraph (JStr line)) lines.
Proof. induction lines as [|line lines IH]; [done|]. cbn. by rewrite IH. Qed.

(** [_build_pdf] returns the three parts when reportlab accepts every text
    given to [Paragraph], the table and the document, and raises otherwise. *)
Lemma build_pdf_spec (data : json) :
  _build_pdf data
  = rep ← App.report_content container_repr data;
    if forallb Paragraph (App.paragraph_texts generated rep)
       && Table (App.readings_table rep) && build rep
    then Some rep else None.
Proof.
  unfold App._build_pdf, App.report_content, App.paragraph_texts, App.requires.
  destruct data as [| | | | | |data];
    try (destruct (Paragraph (JStr "HealTrack Health Report")),
                  (Paragraph (JStr ("Generated: " +:+ generated))); reflexivity).
  destruct (App.user_lines container_repr data) as [lines|],
           (App.table_data container_repr data) as [table|],
           (App.summary container_repr data) as [text|];
    cbn [mbind option_bind App.user_block App.readings_table App.summary_text];
    rewrite ?forallb_app, ?forallb_fmap_JStr; cbn [forallb];
    destruct (Paragraph (JStr "HealTrack Health Report")),
             (Paragraph (JStr ("Generated: " +:+ generated))),
             (Paragraph (JStr "User Details")); cbn [andb mbind option_bind];
    try reflexivity;
    destruct (forallb (λ line, Paragraph (JStr line)) lines),
             (Paragraph (JStr "Last 5 Health Readings"));
    cbn [andb mbind option_bind]; try reflexivity;
    try (destruct (Table table); cbn [andb mbind option_bind]; try reflexivity;
         destruct (Paragraph (JStr "AI Prediction Summary"));
         cbn [andb mbind option_bind]; try reflexivity;
         try (destruct (Paragraph text), (build _); reflexivity)).
Qed.

(** What [_build_pdf] returns is made of the three parts. *)
Lemma build_pdf_parts (data : dict) (rep : App.report) :
  _build_pdf (JDict data) = Some rep →
  App.user_lines container_repr data = Some (App.user_block rep)
  ∧ App.table_data container_repr data = Some (App.readings_table rep)
  ∧ App.summary container_repr data = Some (App.summary_text rep).
Proof.
  rewrite build_pdf_spec. unfold App.report_content.
  destruct (App.user_lines _ _), (App.table_data _ _), (App.summary _ _);
    cbn [mbind option_bind]; try discriminate.
  destruct (_ && _); intros; by simplify_eq/=.
Qed.

(** The keys that the six columns read, in the order of the columns. *)
Local Abbreviation column_keys :=
  (["date"; "systolic"; "diastolic"; "heartRate"; "sugar"; "bmi"] : list string).

Lemma table_row_cell (r : dict) (i : nat) (k : string) :
  column_keys !! i = Some k →
  App.table_row container_repr r !! i
  = Some (match r !! k with
          | Some v => App.py_str container_repr v
          | None => ""
          end).
Proof.
  intros Hi. unfold App.table_row, get_or.
  destruct i as [|[|[|[|[|[|i]]]]]]; simplify_eq/=; by destruct (r !! _).
Qed.

(** C9: the table is the header row, with the six column names, followed
    by one row for each of the first five readings, in the order supplied.
    The row of a reading has, in the six columns, what [str] prints for the
    values under date, systolic, diastolic, heartRate, sugar and bmi, and
    the empty string for a sub-field that the reading lacks. *)
Theorem C9_readings_table (data : dict) (readings : list dict) :
  data !! "readings" = Some (JList (JDict <$> readings)) →
  let cell (r : dict) (k : string) : string :=
    match r !! k with
    | Some v => App.py_str container_repr v
    | None => ""
    end in
  ∃ table,
    App.table_data container_repr data = Some table
    ∧ (∀ rep, _build_pdf (JDict data) = Some rep → App.readings_table rep = table)
    ∧ table = App.table_header :: (App.table_row container_repr <$> take 5 readings)
    ∧ length table = S (5 `min` length readings)
    ∧ table !! 0%nat
      = Some ["Date"; "Systolic"; "Diastolic"; "Heart Rate"; "Glucose"; "BMI"]%string
    ∧ (∀ i r, (i < 5)%nat → readings !! i = Some r →
              table !! S i
              = Some [cell r "date"; cell r "systolic"; cell r "diastolic";
                      cell r "heartRate"; cell r "sugar"; cell r "bmi"]%string)
    ∧ (∀ r k, r !! k = None → cell r k = ""%string).
Proof.
  intros Hr cell. pose proof (table_data_of_dicts data readings Hr) as Ht.
  eexists. split; [exact Ht|]. split; [|split; [|split; [|split; [|split]]]].
  - intros rep (_ & Hrep & _)%build_pdf_parts. rewrite Ht in Hrep.
    by injection Hrep.
  - done.
  - cbn [length]. by rewrite length_fmap, length_take.
  - done.
  - intros i r Hi Hl.
    transitivity ((App.table_row container_repr <$> take 5 readings) !! i);
      [reflexivity|].
    rewrite list_lookup_fmap, lookup_take_lt, Hl by done.
    unfold App.table_row, get_or, cell. cbn [fmap option_fmap option_map].
    by destruct (r !! "date"), (r !! "systolic"), (r !! "diastolic"),
                (r !! "heartRate"), (r !! "sugar"), (r !! "bmi").
  - intros r k Hk. unfold cell. by rewrite Hk.
Qed.

Lemma glucose_ignored (r : dict) (v : json) :
  App.table_row container_repr (<["glucose" := v]> r) = App.table_row container_repr r.
Proof. unfold App.table_row, get_or. by rewrite !lookup_insert_ne by done. Qed.

(** C10: in the assembled table the fifth column is headed Glucose, and
    the row of each of the first five readings has there what [str] prints
    for the value under the key [sugar], and the empty string when the
    reading has no such key.  Values under a key [glucose] are ignored: the
    table is the same whatever they are. *)
Theorem C10_glucose_column_reads_sugar (data : dict) (readings : list dict) :
  data !! "readings" = Some (JList (JDict <$> readings)) →
  ∃ table,
    App.table_data container_repr data = Some table
    ∧ (∀ rep, _build_pdf (JDict data) = Some rep → App.readings_table rep = table)
    ∧ (∃ header, table !! 0%nat = Some header
                 ∧ header !! 4%nat = Some "Glucose"%string)
    ∧ (∀ i r, (i < 5)%nat → readings !! i = Some r →
         ∃ row, table !! S i = Some row
                ∧ row !! 4%nat
                  = Some (match r !! "sugar" with
                          | Some v => App.py_str container_repr v
                          | None => ""%string
                          end))
    ∧ (∀ (data' : dict) (glucose : dict → json),
         data' !! "readings"
         = Some (JList (JDict <$> ((λ r, <["glucose" := glucose r]> r) <$> readings))) →
         App.table_data container_repr data' = Some table).
Proof.
  intros Hr. pose proof (table_data_of_dicts data readings Hr) as Ht.
  eexists. split; [exact Ht|]. split; [|split; [|split]].
  - intros rep (_ & Hrep & _)%build_pdf_parts. rewrite Ht in Hrep.
    by injection Hrep.
  - by eexists.
  - intros i r Hi Hl. eexists. split.
    + transitivity ((App.table_row container_repr <$> take 5 readings) !! i);
        [reflexivity|].
      by rewrite list_lookup_fmap, lookup_take_lt, Hl.
    + by apply table_row_cell.
  - intros data' glucose Hr'. rewrite (table_data_of_dicts data' _ Hr').
    do 2 f_equal. rewrite <- fmap_take, <- list_fmap_compose.
    apply list_fmap_ext. intros i r _. apply glucose_ignored.
Qed.

(** C8 (amended): a summary that is a non-empty string is used as it is.
    When the summary is absent or empty (any value that tests false) and the
    prediction has a risk and a probability that are not null, the text is
    "Risk: {risk} (probability {probability})"; when the prediction is
    absent, null, or lacks one of the two, the text is "N/A". *)
Theorem C8_summary_text (data : dict) :
  (∀ s, data !! "ai_summary" = Some (JStr s) → s ≠ ""%string →
        App.summary container_repr data = Some (JStr s))
  ∧ (truthy (get data "ai_summary") = false →
     (∀ pred risk proba,
        data !! "prediction" = Some (JDict pred) →
        pred !! "risk" = Some risk → pred !! "probability" = Some proba →
        risk ≠ JNull → proba ≠ JNull →
        App.summary container_repr data
        = Some (JStr ("Risk: " +:+ App.py_str container_repr risk
                      +:+ " (probability " +:+ App.py_str container_repr proba
                      +:+ ")")))
     ∧ (data !! "prediction" = None ∨ data !! "prediction" = Some JNull
        ∨ (∃ pred, data !! "prediction" = Some (JDict pred)
                   ∧ (get pred "risk" = JNull ∨ get pred "probability" = JNull)) →
        App.summary container_repr data = Some (JStr "N/A")))
  ∧ (∀ rep, _build_pdf (JDict data) = Some rep →
            App.summary container_repr data = Some (App.summary_text rep)).
Proof.
  split; [|split].
  - intros s Hs Hne. unfold App.summary, get, get_or. rewrite Hs.
    assert (truthy (JStr s) = true) as Ht.
    { cbn [truthy]. destruct (String.eqb_spec s ""); done. }
    rewrite Ht. cbn [negb]. unfold mbind, option_bind, or_else. by rewrite Ht.
  - intros Hf. unfold App.summary. rewrite Hf. cbn [negb]. split.
    + intros pred risk proba Hp Hr Hq Hrn Hqn.
      assert (get data "prediction" = JDict pred) as ->
        by (unfold get, get_or; by rewrite Hp).
      rewrite or_else_dict. unfold App.attr_get, get, get_or. rewrite Hr, Hq.
      destruct risk, proba; done.
    + assert (Hna : ∀ pred, get pred "risk" = JNull ∨ get pred "probability" = JNull →
                (risk ← App.attr_get (JDict pred) "risk";
                 proba ← App.attr_get (JDict pred) "probability";
                 Some (if is_not_None risk && is_not_None proba
                       then JStr ("Risk: " +:+ App.py_str container_repr risk
                                  +:+ " (probability "
                                  +:+ App.py_str container_repr proba +:+ ")")
                       else get data "ai_summary"))
                ≫= (λ ai_summary, Some (or_else ai_summary (JStr "N/A")))
                = Some (JStr "N/A")).
      { intros pred Hnull. unfold App.attr_get. cbn [mbind option_bind].
        assert (is_not_None (get pred "risk") && is_not_None (get pred "probability")
                = false) as ->.
        { destruct Hnull as [-> | ->]; [done|]. by rewrite andb_false_r. }
        unfold or_else. by rewrite Hf. }
      intros [Hp|[Hp|(pred & Hp & Hnull)]].
      * assert (get data "prediction" = JNull) as ->
          by (unfold get, get_or; by rewrite Hp).
        apply (Hna ∅). by left.
      * assert (get data "prediction" = JNull) as ->
          by (unfold get, get_or; by rewrite Hp).
        apply (Hna ∅). by left.
      * assert (get data "prediction" = JDict pred) as ->
          by (unfold get, get_or; by rewrite Hp).
        rewrite or_else_dict. by apply Hna.
  - by intros rep (_ & _ & ?)%build_pdf_parts.
Qed.

End ReportClaims.

(** C9 on seven readings: the table is the header and the first five; and
    on a reading with its six sub-fields. *)
Lemma C9_readings_table_witness :
  App.table_data Examples.no_container Examples.report_request
  = Some [ ["Date"; "Systolic"; "Diastolic"; "Heart Rate"; "Glucose"; "BMI"];
           ["2024-03-07"; "131"; ""; ""; ""; ""];
           ["2024-03-06"; "128"; ""; ""; ""; ""];
           ["2024-03-05"; "135"; ""; ""; ""; ""];
           ["2024-03-04"; "122"; ""; ""; ""; ""];
           ["2024-03-03"; "140"; ""; ""; ""; ""] ]%string
  ∧ App.table_data Examples.no_container Examples.two_readings_request
    = Some [ ["Date"; "Systolic"; "Diastolic"; "Heart Rate"; "Glucose"; "BMI"];
             ["2024-03-08"; "128"; "82"; "71"; "104.5"; "24.5"];
             ["2024-03-07"; ""; ""; ""; ""; ""] ]%string.
Proof.
  split.
  - destruct (C9_readings_table Examples.no_container Examples.a_time
                Examples.every_text Examples.every_table Examples.every_document
                Examples.report_request Examples.seven_readings eq_refl)
      as (table & Ht & _ & -> & _).
    rewrite Ht. reflexivity.
  - destruct (C9_readings_table Examples.no_container Examples.a_time
                Examples.every_text Examples.every_table Examples.every_document
                Examples.two_readings_request
                [Examples.complete_reading; Examples.glucose_reading] eq_refl)
      as (table & Ht & _ & -> & _).
    rewrite Ht. reflexivity.
Defined.

(** C10 on a reading that has [sugar] and on one that has [glucose] only:
    104.5 for the first, an empty cell for the second. *)
Lemma C10_glucose_column_reads_sugar_witness :
  ∃ table row1 row2,
    App.table_data Examples.no_container Examples.two_readings_request = Some table
    ∧ table !! 1%nat = Some row1 ∧ row1 !! 4%nat = Some "104.5"%string
    ∧ table !! 2%nat = Some row2 ∧ row2 !! 4%nat = Some ""%string.
Proof.
  destruct (C10_glucose_column_reads_sugar Examples.no_container Examples.a_time
              Examples.every_text Examples.every_table Examples.every_document
              Examples.two_readings_request
              [Examples.complete_reading; Examples.glucose_reading] eq_refl)
    as (table & Ht & _ & _ & Hrow & _).
  destruct (Hrow 0%nat Examples.complete_reading ltac:(lia) eq_refl)
    as (row1 & H1 & C1).
  destruct (Hrow 1%nat Examples.glucose_reading ltac:(lia) eq_refl)
    as (row2 & H2 & C2).
  exists table, row1, row2. repeat split; assumption.
Defined.

(** C8 (counterexample): an empty summary string is not used as it is; the
    text is synthesized from the prediction, or is "N/A" without one. *)
Lemma C8_empty_summary_is_replaced :
  App.summary Examples.no_container
    (<["ai_summary" := JStr ""]> Examples.report_request)
  = Some (JStr "Risk: Medium (probability 0.5)")
  ∧ App.summary Examples.no_container {[ "ai_summary" := JStr "" ]}
    = Some (JStr "N/A").
Proof. split; vm_compute; reflexivity. Qed.

Lemma C8_summary_text_witness :
  App.summary Examples.no_container
    (<["ai_summary" := JStr "Stable over the week."]> Examples.report_request)
  = Some (JStr "Stable over the week.")
  ∧ App.summary Examples.no_container Examples.report_request
    = Some (JStr "Risk: Medium (probability 0.5)")
  ∧ App.summary Examples.no_container Examples.empty_request = Some (JStr "N/A").
Proof.
  split; [|split].
  - apply (proj1 (C8_summary_text Examples.no_container Examples.a_time
                    Examples.every_text Examples.every_table Examples.every_document
                    _) "Stable over the week.");
      [reflexivity|discriminate].
  - rewrite (proj1 (proj1 (proj2 (C8_summary_text Examples.no_container
               Examples.a_time Examples.every_text Examples.every_table
               Examples.every_document Examples.report_request)) eq_refl)
               {[ "risk" := JStr "Medium"; "probability" := JFloat 0.5 ]}
               (JStr "Medium") (JFloat 0.5) eq_refl eq_refl eq_refl
               ltac:(discriminate) ltac:(discriminate)).
    vm_compute. reflexivity.
  - apply (proj2 (proj1 (proj2 (C8_summary_text Examples.no_container
                    Examples.a_time Examples.every_text Examples.every_table
                    Examples.every_document Examples.empty_request)) eq_refl)).
    left. reflexivity.
Defined.

(** * Further properties of the code *)

(** ** The scorer *)

Section ScorerFacts.

Local Open Scope float_scope.

(** The case split on the threshold tests, then membership in a list of
    literals. *)
Ltac each_threshold_case :=
  cbv beta zeta delta [Main.compute_risk Main.risk_score Py.geb];
  repeat match goal with
    | |- context [PrimFloat.leb ?a ?b] =>
        first [is_var a | is_var b]; destruct (PrimFloat.leb a b)
    end;
  vm_compute.

Ltac in_literals :=
  repeat first [apply list_elem_of_here | apply list_elem_of_further].

(** X1: whatever the vitals, the score is one of 0, 0.5, ..., 10.5; the
    largest, 10.5, is the score when every vital is in its top band. *)
Theorem X1_score_half_steps (bp heart_rate sugar bmi : float) :
  Main.risk_score bp heart_rate sugar bmi ∈ half_steps
  ∧ (0 <=? Main.risk_score bp heart_rate sugar bmi) = true
  ∧ (Main.risk_score bp heart_rate sugar bmi <=? 10.5) = true
  ∧ ((180 <=? bp) = true → (120 <=? heart_rate) = true →
     (250 <=? sugar) = true → (35 <=? bmi) = true →
     Main.risk_score bp heart_rate sugar bmi = 10.5).
Proof.
  split; [|split; [|split]].
  - each_threshold_case; in_literals.
  - each_threshold_case; reflexivity.
  - each_threshold_case; reflexivity.
  - intros H1 H2 H3 H4.
    cbv beta zeta delta [Main.risk_score Py.geb]. rewrite H1, H2, H3, H4.
    reflexivity.
Qed.

Lemma X1_score_half_steps_witness :
  Main.risk_score 185 125 260 36 = 10.5
  ∧ Main.compute_risk 185 125 260 36 = ("High", 0.95).
Proof.
  split; [|reflexivity].
  exact (proj2 (proj2 (proj2 (X1_score_half_steps 185 125 260 36)))
           eq_refl eq_refl eq_refl eq_refl).
Defined.

(** X2: a vital that is NaN meets no threshold: it adds to the score what
    a vital in the normal range adds, nothing. *)
Theorem X2_nan_vital_adds_nothing (bp heart_rate sugar bmi : float) :
  Main.risk_score nan heart_rate sugar bmi = Main.risk_score 120 heart_rate sugar bmi
  ∧ Main.risk_score bp nan sugar bmi = Main.risk_score bp 70 sugar bmi
  ∧ Main.risk_score bp heart_rate nan bmi = Main.risk_score bp heart_rate 100 bmi
  ∧ Main.risk_score bp heart_rate sugar nan = Main.risk_score bp heart_rate sugar 24
  ∧ Main.compute_risk nan nan nan nan = ("Low", 0.15).
Proof.
  repeat split; each_threshold_case; reflexivity.
Qed.

(** X3: the label of the scorer is the bucket that [bucketize] gives to
    its probability, except at score 2: there the scorer says Low with
    probability 0.35, which [bucketize] calls Medium. *)
Theorem X3_scorer_label_and_bucket (bp heart_rate sugar bmi : float) :
  App.bucketize (Main.compute_risk bp heart_rate sugar bmi).2
  = (Main.compute_risk bp heart_rate sugar bmi).1
  ∨ (Main.risk_score bp heart_rate sugar bmi = 2
     ∧ Main.compute_risk bp heart_rate sugar bmi = ("Low", 0.35)
     ∧ App.bucketize 0.35 = "Medium").
Proof.
  cbv beta delta [Main.compute_risk].
  cbv beta zeta delta [Main.risk_score Py.geb].
  repeat match goal with
    | |- context [PrimFloat.leb ?a ?b] =>
        first [is_var a | is_var b]; destruct (PrimFloat.leb a b)
    end;
  vm_compute; first [left; reflexivity | right; repeat split].
Qed.

(** X4: the rule-based endpoint has 19 answers: a label and a probability
    rounded to 3 decimals from [risk_table]; each of them is reached. *)
Theorem X4_rule_based_answers :
  (∀ bp heart_rate sugar bmi,
     let '(label, prob) := Main.compute_risk bp heart_rate sugar bmi in
     (label, Py.round prob 3) ∈ risk_table)
  ∧ (λ '(bp, heart_rate, sugar, bmi),
       let '(label, prob) := Main.compute_risk bp heart_rate sugar bmi in
       (label, Py.round prob 3)) <$> Examples.table_inputs
    = risk_table.
Proof.
  split; [|vm_compute; reflexivity].
  intros bp heart_rate sugar bmi. each_threshold_case; in_literals.
Qed.

End ScorerFacts.

(** ** The bucketizer *)

Section BucketizerFacts.

Local Open Scope float_scope.

(** X5: [bucketize] is monotone: a probability at least as large never
    gets a lower band. *)
Theorem X5_bucketize_monotone (p q : float) :
  (p <=? q) = true →
  (band_rank (App.bucketize p) ≤ band_rank (App.bucketize q))%nat.
Proof.
  intros Hpq.
  assert (Hstep : ∀ t, Prim2SF t ≠ S754_nan →
            (q <? t) = true → (p <? t) = false → False).
  { intros t Ht Hq Hp.
    apply not_ltb_leb in Hp; [|by eapply leb_number_l|done].
    by rewrite (leb_not_ltb _ _ (leb_trans _ _ _ Hp Hpq)) in Hq. }
  unfold App.bucketize.
  destruct (q <? 0.33) eqn:Hq1, (q <? 0.66) eqn:Hq2,
           (p <? 0.33) eqn:Hp1, (p <? 0.66) eqn:Hp2;
    try (vm_compute; lia);
    first [by destruct (Hstep 0.33) | by destruct (Hstep 0.66)].
Qed.

Lemma X5_bucketize_monotone_witness :
  (band_rank (App.bucketize 0.2) ≤ band_rank (App.bucketize 0.7))%nat.
Proof. exact (X5_bucketize_monotone 0.2 0.7 eq_refl). Defined.

End BucketizerFacts.

(** ** The rule-based endpoint *)

Section MainFacts.

Variable float_of_str : string → option float.

Local Abbreviation converts payload k x := (py_float float_of_str (get payload k) = Ok x).

(** The requests that [predict] answers with 200. *)
Lemma main_predict_ok_inv (request_json : option json) :
  status (Main.predict float_of_str request_json) = 200 →
  ∃ payload bp heart_rate sugar bmi,
    request_json = Some (JDict payload)
    ∧ converts payload "bp" bp ∧ converts payload "heart_rate" heart_rate
    ∧ converts payload "sugar" sugar ∧ converts payload "bmi" bmi.
Proof.
  destruct request_json as [[| | | | | |payload]|]; try discriminate.
  unfold Main.predict, Main.assess, Main._to_float, mbind, result_bind.
  destruct (py_float float_of_str (get payload "bp")) as [bp|[]] eqn:H1;
    try discriminate.
  destruct (py_float float_of_str (get payload "heart_rate")) as [hr|[]] eqn:H2;
    try discriminate.
  destruct (py_float float_of_str (get payload "sugar")) as [sugar|[]] eqn:H3;
    try discriminate.
  destruct (py_float float_of_str (get payload "bmi")) as [bmi|[]] eqn:H4;
    try discriminate.
  intros _. by exists payload, bp, hr, sugar, bmi.
Qed.

(** X6: [predict] answers 200 exactly on a JSON object whose four vitals
    convert to floats; otherwise it answers 400 or 500: 400 with "Invalid
    JSON body" on any JSON value that is not an object, 500 on a body that
    is not JSON. *)
Theorem X6_main_status (request_json : option json) :
  (status (Main.predict float_of_str request_json) = 200 ↔
   ∃ payload bp heart_rate sugar bmi,
     request_json = Some (JDict payload)
     ∧ converts payload "bp" bp ∧ converts payload "heart_rate" heart_rate
     ∧ converts payload "sugar" sugar ∧ converts payload "bmi" bmi)
  ∧ (status (Main.predict float_of_str request_json) = 200
     ∨ status (Main.predict float_of_str request_json) = 400
     ∨ status (Main.predict float_of_str request_json) = 500)
  ∧ (∀ v, request_json = Some v → is_dict v = false →
          Main.predict float_of_str request_json
          = Response (error_body "Invalid JSON body") 400)
  ∧ (request_json = None →
     Main.predict float_of_str request_json
     = Response (error_body "Prediction failed") 500).
Proof.
  split; [|split; [|split]].
  - split; [apply main_predict_ok_inv|].
    intros (payload & bp & hr & sugar & bmi & -> & H1 & H2 & H3 & H4).
    by rewrite (main_predict_valid float_of_str payload bp hr sugar bmi).
  - destruct request_json as [[| | | | | |payload]|]; cbn [Main.predict status]; auto.
    unfold Main.assess, Main._to_float, mbind, result_bind.
    destruct (py_float float_of_str (get payload "bp")) as [bp|[]]; auto.
    destruct (py_float float_of_str (get payload "heart_rate")) as [hr|[]]; auto.
    destruct (py_float float_of_str (get payload "sugar")) as [sugar|[]]; auto.
    destruct (py_float float_of_str (get payload "bmi")) as [bmi|[]]; auto.
    destruct (Main.compute_risk bp hr sugar bmi). auto.
  - intros v -> Hv. by destruct v.
  - by intros ->.
Qed.

(** X7: the [inputs] that a 200 answer echoes are a request of their own,
    and [predict] answers it with the same response. *)
Theorem X7_echoed_inputs_reproduce (request_json : option json) :
  status (Main.predict float_of_str request_json) = 200 →
  ∃ fields inputs,
    body (Main.predict float_of_str request_json) = JDict fields
    ∧ fields !! "inputs" = Some inputs
    ∧ Main.predict float_of_str (Some inputs)
      = Main.predict float_of_str request_json.
Proof.
  intros (payload & bp & hr & sugar & bmi & -> & H1 & H2 & H3 & H4)%main_predict_ok_inv.
  rewrite (main_predict_valid float_of_str payload bp hr sugar bmi) by done.
  eexists _, _. split; [reflexivity|]. split; [reflexivity|].
  by apply main_predict_valid.
Qed.

End MainFacts.

Lemma X7_echoed_inputs_reproduce_witness :
  Main.predict Examples.no_literal
    (Some (JDict {[ "bp" := JFloat 120%float; "heart_rate" := JFloat 70%float;
                    "sugar" := JFloat 100%float; "bmi" := JFloat 24%float ]}))
  = Main.predict Examples.no_literal (Some (JDict Examples.four_vitals)).
Proof.
  destruct (X7_echoed_inputs_reproduce Examples.no_literal
              (Some (JDict Examples.four_vitals)) eq_refl)
    as (fields & inputs & Hb & Hi & He).
  vm_compute in Hb. injection Hb as <-. vm_compute in Hi. injection Hi as <-.
  rewrite <- He. reflexivity.
Defined.

(** ** Integers too large for a float *)

Section Overflow.

Lemma div_half_even_lower (p q : Z) :
  (0 < q)%Z → (0 ≤ p)%Z → (p / q ≤ Py.div_half_even p q)%Z.
Proof.
  intros Hq Hp. unfold Py.div_half_even.
  destruct (2 * (p mod q) ?= q)%Z; [destruct (Z.even (p / q))| |]; lia.
Qed.

(** [float(z)] raises [OverflowError] from [2^1024] on. *)
Lemma float_of_int_overflow (z : Z) :
  (2 ^ 1024 ≤ Z.abs z)%Z → Py.float_of_int z = None.
Proof.
  intros Hz. unfold Py.float_of_int, Py.binary64_of_ratio.
  set (p := Z.abs z) in *.
  assert (0 < 2 ^ 1024)%Z as Hpos by (apply Z.pow_pos_nonneg; lia).
  assert (0 < p)%Z as Hp by lia.
  destruct (Z.log2_spec p Hp) as [Hlo _].
  assert (1024 ≤ Z.log2 p)%Z as Hl.
  { rewrite <- (Z.log2_pow2 1024) by lia. by apply Z.log2_le_mono. }
  replace (p =? 0)%Z with false by (symmetry; apply Z.eqb_neq; lia).
  assert (Py.floor_log2_ratio p 1 = Z.log2 p) as ->.
  { unfold Py.floor_log2_ratio. change (Z.log2 1) with 0%Z. rewrite Z.sub_0_r.
    replace (0 <=? Z.log2 p)%Z with true by (symmetry; apply Z.leb_le; lia).
    rewrite Z.mul_1_l.
    by replace (2 ^ Z.log2 p <=? p)%Z with true by (symmetry; by apply Z.leb_le). }
  rewrite Z.max_l by lia. unfold Py.scaled_half_even.
  replace (0 <=? Z.log2 p - 52)%Z with true by (symmetry; apply Z.leb_le; lia).
  rewrite Z.mul_1_l.
  set (q := (2 ^ (Z.log2 p - 52))%Z).
  assert (0 < q)%Z as Hq by (apply Z.pow_pos_nonneg; lia).
  assert (2 ^ 52 ≤ Py.div_half_even p q)%Z as Hm.
  { etrans; [|apply div_half_even_lower; lia].
    apply Z.div_le_lower_bound; [done|].
    unfold q. rewrite Z.mul_comm, <- Z.pow_add_r by lia.
    by replace (52 + (Z.log2 p - 52))%Z with (Z.log2 p) by lia. }
  assert (52 ≤ Z.log2 (Py.div_half_even p q))%Z as Hlm.
  { rewrite <- (Z.log2_pow2 52) by lia. by apply Z.log2_le_mono. }
  replace (1024 <=? Z.log2 (Py.div_half_even p q) + (Z.log2 p - 52))%Z with true
    by (symmetry; apply Z.leb_le; lia).
  reflexivity.
Qed.

Variable float_of_str : string → option float.

(** X8: an integer vital of absolute value [2^1024] or more is not
    answered as a validation error.  When it is the blood pressure, the
    rule-based endpoint answers 500 "Prediction failed", and the model-backed
    endpoint lets the [OverflowError] escape, whatever the other vitals. *)
Theorem X8_huge_integer_vital (payload : dict) (z : Z) :
  payload !! "bp" = Some (JInt z) → (2 ^ 1024 ≤ Z.abs z)%Z →
  Main.predict float_of_str (Some (JDict payload))
  = Response (error_body "Prediction failed") 500
  ∧ (filter (λ k, payload !! k = None) App.required = [] →
     ∀ model : App.artifact,
       App.predict float_of_str (Some model) (Some (JDict payload))
       = Raise OverflowError).
Proof.
  intros Hbp Hz.
  assert (py_float float_of_str (JInt z) = Raise OverflowError) as Hov.
  { cbn [py_float]. by rewrite float_of_int_overflow. }
  split.
  - unfold Main.predict, Main.assess, Main._to_float, get, get_or.
    by rewrite Hbp, Hov.
  - intros Hnone model. unfold App.predict.
    change (default JNull (Some (JDict payload))) with (JDict payload).
    rewrite or_else_dict, absent_keys_dict, Hnone.
    unfold mbind at 1, result_bind at 1. rewrite bool_decide_false by auto.
    unfold App.coerce, App.subscript. rewrite Hbp.
    unfold mbind, result_bind. by rewrite Hov.
Qed.

End Overflow.

Lemma X8_huge_integer_vital_witness :
  Main.predict Examples.no_literal
    (Some (JDict (<["bp" := JInt (10 ^ 309)]> Examples.four_vitals)))
  = Response (error_body "Prediction failed") 500
  ∧ App.predict Examples.no_literal (Some (Examples.constant_model 0.5))
      (Some (JDict (<["bp" := JInt (10 ^ 309)]> Examples.four_vitals)))
    = Raise OverflowError.
Proof.
  destruct (X8_huge_integer_vital Examples.no_literal
              (<["bp" := JInt (10 ^ 309)]> Examples.four_vitals) (10 ^ 309))
    as [Hmain Happ]; [reflexivity|vm_compute; discriminate|].
  split; [exact Hmain|]. apply Happ. vm_compute. reflexivity.
Defined.

(** ** The model-backed endpoint *)

Section AppFacts.

Variable float_of_str : string → option float.

Lemma app_predict_falsy_body (model : App.artifact) (request_json : option json) :
  truthy (default JNull request_json) = false →
  App.predict float_of_str (Some model) request_json
  = Ok (Response (error_body "Missing fields: bp, heart_rate, sugar, bmi") 400).
Proof.
  intros Hf. unfold App.predict, or_else. rewrite Hf.
  by rewrite absent_keys_dict.
Qed.

(** X9: with an artifact loaded, a body that is not JSON, or that is null,
    false, 0, an empty string, list or object, is taken for [{}]: the
    answer lists the four fields as missing. *)
Theorem X9_falsy_body_lists_all_fields (model : App.artifact)
    (request_json : option json) :
  truthy (default JNull request_json) = false →
  App.predict float_of_str (Some model) request_json
  = Ok (Response (error_body "Missing fields: bp, heart_rate, sugar, bmi") 400).
Proof. apply app_predict_falsy_body. Qed.

Lemma contains_list (l : list json) (k : string) :
  JStr k ∈ l → App.contains (JList l) k = Ok true.
Proof.
  intros Hk. cbn [App.contains]. f_equal. apply existsb_exists.
  exists (JStr k). split; [by apply list_elem_of_In|apply String.eqb_refl].
Qed.

(** X10: a body that is a number other than 0, or [true], makes the test
    [k not in data] raise a [TypeError] that nothing catches; a JSON array
    that holds the four field names passes that test and is answered "All
    fields must be numbers". *)
Theorem X10_bodies_that_are_not_objects (model : App.artifact) :
  (∀ v, truthy v = true →
        match v with JBool _ | JInt _ | JFloat _ => True | _ => False end →
        App.predict float_of_str (Some model) (Some v) = Raise TypeError)
  ∧ (∀ l, (∀ k, k ∈ App.required → JStr k ∈ l) →
          App.predict float_of_str (Some model) (Some (JList l))
          = Ok (Response (error_body "All fields must be numbers") 400)).
Proof.
  split.
  - intros v Ht Hv. unfold App.predict, or_else.
    change (default JNull (Some v)) with v. rewrite Ht.
    by destruct v.
  - intros l Hl. unfold App.predict, or_else.
    change (default JNull (Some (JList l))) with (JList l).
    assert (truthy (JList l) = true) as ->.
    { destruct l; [|done]. specialize (Hl "bp"). unfold App.required in Hl.
      rewrite elem_of_cons, elem_of_nil in Hl. exfalso. tauto. }
    unfold App.required in *. cbn [App.absent_keys].
    rewrite !contains_list by (apply Hl; rewrite !elem_of_cons; tauto).
    reflexivity.
Qed.

(** X11: when the four vitals convert and the artifact raises, the answer
    is 500 and carries the text of the exception. *)
Theorem X11_inference_failure_text (model : App.artifact) (payload : dict)
    (bp heart_rate sugar bmi : float) (msg : string) :
  py_float float_of_str (get payload "bp") = Ok bp →
  py_float float_of_str (get payload "heart_rate") = Ok heart_rate →
  py_float float_of_str (get payload "sugar") = Ok sugar →
  py_float float_of_str (get payload "bmi") = Ok bmi →
  model bp heart_rate sugar bmi = Raise msg →
  App.predict float_of_str (Some model) (Some (JDict payload))
  = Ok (Response (error_body ("Prediction failed: " +:+ msg)) 500).
Proof.
  intros (v1 & P1 & H1)%coerces_present (v2 & P2 & H2)%coerces_present
         (v3 & P3 & H3)%coerces_present (v4 & P4 & H4)%coerces_present Hm.
  unfold App.predict.
  change (default JNull (Some (JDict payload))) with (JDict payload).
  rewrite or_else_dict, absent_keys_dict. unfold App.required.
  rewrite !filter_cons, filter_nil.
  rewrite !decide_False by congruence.
  unfold mbind at 1, result_bind at 1. rewrite bool_decide_false by auto.
  unfold App.coerce, App.subscript. rewrite P1, P2, P3, P4.
  unfold mbind, result_bind. rewrite H1, H2, H3, H4, Hm. reflexivity.
Qed.

(** X12: [/health] reports [model_loaded] false exactly when [predict]
    answers every request with "Model not loaded". *)
Theorem X12_health_agrees_with_predict (model : option App.artifact) :
  App.health model
  = Response (JDict {[ "status" := JStr "ok"; "model_loaded" := JBool false ]}) 200
  ↔ ∀ request_json,
      App.predict float_of_str model request_json
      = Ok (Response (error_body "Model not loaded. Train first.") 500).
Proof.
  split.
  - destruct model as [m|]; [|done].
    intros H.
    apply (f_equal (λ r, match body r with
                         | JDict d => d !! "model_loaded"
                         | _ => None
                         end)) in H.
    vm_compute in H. discriminate.
  - destruct model as [m|]; [|done].
    intros H. specialize (H None).
    rewrite app_predict_falsy_body in H by done.
    injection H as _ H. discriminate.
Qed.

End AppFacts.

Lemma X9_falsy_body_lists_all_fields_witness :
  App.predict Examples.no_literal (Some Examples.failing_model) (Some (JList []))
  = Ok (Response (error_body "Missing fields: bp, heart_rate, sugar, bmi") 400).
Proof.
  exact (X9_falsy_body_lists_all_fields Examples.no_literal Examples.failing_model
           (Some (JList [])) eq_refl).
Defined.

Lemma X10_bodies_that_are_not_objects_witness :
  App.predict Examples.no_literal (Some Examples.failing_model) (Some (JInt 7))
  = Raise TypeError
  ∧ App.predict Examples.no_literal (Some Examples.failing_model)
      (Some (JList [JStr "bmi"; JStr "sugar"; JStr "heart_rate"; JStr "bp"]))
    = Ok (Response (error_body "All fields must be numbers") 400).
Proof.
  destruct (X10_bodies_that_are_not_objects Examples.no_literal Examples.failing_model)
    as [Hnum Hlist].
  split.
  - by apply Hnum.
  - apply Hlist. intros k. unfold App.required.
    rewrite !elem_of_cons, elem_of_nil. intros [->|[->|[->|[->|[]]]]]; tauto.
Defined.

Lemma X11_inference_failure_text_witness :
  App.predict Examples.no_literal (Some Examples.failing_model)
    (Some (JDict Examples.four_vitals))
  = Ok (Response (error_body "Prediction failed: singular matrix") 500).
Proof.
  exact (X11_inference_failure_text Examples.no_literal Examples.failing_model
           Examples.four_vitals 120 70 100 24 "singular matrix"
           eq_refl eq_refl eq_refl eq_refl eq_refl).
Defined.

(** ** The report content *)

Section ReportFacts.

Local Set Default Proof Using "Type".

Variable container_repr : json → string.

Lemma or_else_falsy (v w : json) : truthy v = false → or_else v w = w.
Proof. unfold or_else. by intros ->. Qed.

Lemma or_else_truthy (v w : json) : truthy v = true → or_else v w = v.
Proof. unfold or_else. by intros ->. Qed.

(** The lines of the user block, for the profile that is read. *)
Lemma user_lines_of_profile (data user : dict) :
  or_else (get data "user") (JDict ∅) = JDict user →
  App.user_lines container_repr data
  = Some (let lines :=
            flat_map (λ k, if is_not_None (get user k)
                           then ["<b>" +:+ App.title k +:+ "</b>: "
                                 +:+ App.py_str container_repr (get user k)]
                           else []) App.user_fields in
          match lines with
          | [] => ["No user details provided"%string]
          | _ => lines
          end).
Proof. unfold App.user_lines. intros ->. reflexivity. Qed.

Ltac each_user_field user :=
  destruct (is_not_None (get user "name")) eqn:Hname,
           (is_not_None (get user "email")) eqn:Hemail,
           (is_not_None (get user "age")) eqn:Hage,
           (is_not_None (get user "gender")) eqn:Hgender,
           (is_not_None (get user "id")) eqn:Hid.

(** X13: for a profile that is a dict, the user block is never empty and
    has at most five lines; it is the single line "No user details
    provided" when the five fields are absent or null; a field that is
    there has its line, with its label; keys other than the five change
    nothing. *)
Theorem X13_user_block (data user : dict) :
  data !! "user" = Some (JDict user) →
  ∃ lines,
    App.user_lines container_repr data = Some lines
    ∧ lines ≠ [] ∧ (length lines ≤ 5)%nat
    ∧ ((∀ k, k ∈ App.user_fields → get user k = JNull) →
       lines = ["No user details provided"%string])
    ∧ (∀ k label v,
         (k, label) ∈ [("name", "Name"); ("email", "Email"); ("age", "Age");
                       ("gender", "Gender"); ("id", "Id")]%string →
         user !! k = Some v → v ≠ JNull →
         ("<b>" +:+ label +:+ "</b>: " +:+ App.py_str container_repr v) ∈ lines)
    ∧ (∀ data' k v,
         k ∉ App.user_fields →
         data' !! "user" = Some (JDict (<[k := v]> user)) →
         App.user_lines container_repr data' = Some lines).
Proof.
  intros Hu.
  assert (Hprofile : ∀ (d u : dict), d !! "user" = Some (JDict u) →
            or_else (get d "user") (JDict ∅) = JDict u).
  { intros d u Hd. unfold get, get_or. rewrite Hd. apply or_else_dict. }
  eexists. split; [by apply user_lines_of_profile, Hprofile|].
  split; [|split; [|split; [|split]]].
  - unfold App.user_fields. cbn [flat_map app]. by each_user_field user.
  - unfold App.user_fields. cbn [flat_map app].
    each_user_field user; cbn [app length]; lia.
  - intros Hnull. unfold App.user_fields in *. cbn [flat_map app].
    rewrite !Hnull by (rewrite !elem_of_cons; tauto). reflexivity.
  - intros k label v Hk Hv Hnn.
    assert (get user k = v) as Hg by (unfold get, get_or; by rewrite Hv).
    assert (is_not_None (get user k) = true) as Hn by (rewrite Hg; by destruct v).
    rewrite !elem_of_cons, elem_of_nil in Hk.
    unfold App.user_fields. cbn [flat_map app].
    destruct Hk as [Hk|[Hk|[Hk|[Hk|[Hk|[]]]]]]; injection Hk as -> ->;
      rewrite Hn, Hg;
      match goal with
      | |- context [App.title ?f] =>
          let label := eval vm_compute in (App.title f) in
          change (App.title f) with label
      end.
    + apply list_elem_of_here.
    + destruct (is_not_None (get user "name")); cbn [app];
        repeat first [apply list_elem_of_here | apply list_elem_of_further].
    + destruct (is_not_None (get user "name")), (is_not_None (get user "email"));
        cbn [app];
        repeat first [apply list_elem_of_here | apply list_elem_of_further].
    + destruct (is_not_None (get user "name")), (is_not_None (get user "email")),
               (is_not_None (get user "age"));
        cbn [app];
        repeat first [apply list_elem_of_here | apply list_elem_of_further].
    + destruct (is_not_None (get user "name")), (is_not_None (get user "email")),
               (is_not_None (get user "age")), (is_not_None (get user "gender"));
        cbn [app];
        repeat first [apply list_elem_of_here | apply list_elem_of_further].
  - intros data' k v Hk Hd'.
    rewrite (user_lines_of_profile data' _ (Hprofile _ _ Hd')).
    assert (Hsame : ∀ k', k' ∈ App.user_fields → get (<[k := v]> user) k' = get user k').
    { intros k' Hk'. unfold get, get_or. rewrite lookup_insert_ne; [done|].
      by intros ->. }
    unfold App.user_fields in *. cbn [flat_map app].
    by rewrite !Hsame by (rewrite !elem_of_cons; tauto).
Qed.

Lemma get_lookup (d : dict) (k : string) (v : json) :
  d !! k = Some v → get d k = v.
Proof. unfold get, get_or. by intros ->. Qed.

(** [table_data] on a list of readings that is not empty. *)
Lemma table_data_of_list (data : dict) (readings : list json) :
  data !! "readings" = Some (JList readings) →
  App.table_data container_repr data
  = rows ← mapM (λ r, match r with
                      | JDict d => Some (App.table_row container_repr d)
                      | _ => None
                      end) (take 5 readings);
    Some (App.table_header :: rows).
Proof.
  intros Hr. unfold App.table_data. rewrite (get_lookup _ _ _ Hr).
  by destruct readings.
Qed.

(** X14: the readings after the fifth are never looked at: two requests
    whose lists of readings share their first five entries get the same
    table, whatever follows. *)
Theorem X14_readings_after_the_fifth (data data' : dict)
    (first rest rest' : list json) :
  length first = 5%nat →
  data !! "readings" = Some (JList (first ++ rest)) →
  data' !! "readings" = Some (JList (first ++ rest')) →
  App.table_data container_repr data = App.table_data container_repr data'.
Proof.
  intros Hlen Hd Hd'.
  rewrite (table_data_of_list _ _ Hd), (table_data_of_list _ _ Hd').
  by rewrite !take_app_length' by done.
Qed.

(** X16: a sub-field that is present prints what [str] gives for its
    value: a null prints as "None" and a boolean as "True" or "False", not
    as an empty cell. *)
Theorem X16_present_sub_field (r : dict) (i : nat) (k : string) (v : json) :
  ["date"; "systolic"; "diastolic"; "heartRate"; "sugar"; "bmi"]%string !! i = Some k →
  r !! k = Some v →
  App.table_row container_repr r !! i = Some (App.py_str container_repr v)
  ∧ (v = JNull → App.table_row container_repr r !! i = Some "None"%string)
  ∧ (v = JBool true → App.table_row container_repr r !! i = Some "True"%string).
Proof.
  intros Hi Hv. rewrite (table_row_cell container_repr r i k Hi), Hv.
  split; [done|]. split; by intros ->.
Qed.

Lemma summary_of_truthy (data : dict) :
  truthy (get data "ai_summary") = true →
  App.summary container_repr data = Some (get data "ai_summary").
Proof.
  intros Ht. unfold App.summary. rewrite Ht. cbn [negb mbind option_bind].
  by rewrite or_else_truthy.
Qed.

Lemma summary_of_falsy (data : dict) :
  truthy (get data "ai_summary") = false →
  App.summary container_repr data
  = match or_else (get data "prediction") (JDict ∅) with
    | JDict pred =>
        Some (if is_not_None (get pred "risk") && is_not_None (get pred "probability")
              then JStr ("Risk: " +:+ App.py_str container_repr (get pred "risk")
                         +:+ " (probability "
                         +:+ App.py_str container_repr (get pred "probability")
                         +:+ ")")
              else JStr "N/A")
    | _ => None
    end.
Proof.
  intros Hf. unfold App.summary. rewrite Hf. cbn [negb].
  destruct (or_else (get data "prediction") (JDict ∅)); try reflexivity.
  cbn [App.attr_get mbind option_bind].
  destruct (is_not_None _ && is_not_None _); [reflexivity|].
  by rewrite or_else_falsy.
Qed.

Lemma summary_None (data : dict) :
  App.summary container_repr data = None ↔
  truthy (get data "ai_summary") = false
  ∧ truthy (get data "prediction") = true
  ∧ is_dict (get data "prediction") = false.
Proof.
  destruct (truthy (get data "ai_summary")) eqn:Hs.
  - rewrite (summary_of_truthy data Hs). split; [done|]. by intros (? & _).
  - rewrite (summary_of_falsy data Hs). unfold or_else.
    destruct (truthy (get data "prediction")) eqn:Hp.
    + destruct (get data "prediction"); split; try done; by intros (_ & _ & ?).
    + split; [done|]. by intros (_ & ? & _).
Qed.

Lemma summary_truthy (data : dict) (text : json) :
  App.summary container_repr data = Some text → truthy text = true.
Proof.
  destruct (truthy (get data "ai_summary")) eqn:Hs.
  - rewrite (summary_of_truthy data Hs). by intros [= <-].
  - rewrite (summary_of_falsy data Hs).
    destruct (or_else _ _); try done.
    intros [= <-]. by destruct (is_not_None _ && is_not_None _).
Qed.

(** X17: the text of the summary paragraph is never empty (nor any other
    value that tests false); a summary that tests true is used whatever the
    prediction is; and the summary raises exactly when there is no such
    summary and the prediction is neither a value that tests false nor a
    JSON object. *)
Theorem X17_summary_is_never_empty (data : dict) :
  (∀ text, App.summary container_repr data = Some text → truthy text = true)
  ∧ (truthy (get data "ai_summary") = true →
     App.summary container_repr data = Some (get data "ai_summary"))
  ∧ (App.summary container_repr data = None ↔
     truthy (get data "ai_summary") = false
     ∧ truthy (get data "prediction") = true
     ∧ is_dict (get data "prediction") = false).
Proof.
  split; [apply summary_truthy|]. split; [apply summary_of_truthy|apply summary_None].
Qed.

Lemma user_lines_is_Some (data : dict) :
  is_Some (App.user_lines container_repr data) ↔ falsy_or_dict (get data "user").
Proof.
  unfold App.user_lines, falsy_or_dict, or_else.
  destruct (truthy (get data "user")) eqn:Ht.
  - destruct (get data "user"); split; try (by eauto); try (by intros [? ?]);
      by intros [?|?].
  - split; eauto.
Qed.

Lemma summary_is_Some (data : dict) :
  is_Some (App.summary container_repr data) ↔
  truthy (get data "ai_summary") = true ∨ falsy_or_dict (get data "prediction").
Proof.
  rewrite <- not_eq_None_Some.
  rewrite summary_None. unfold falsy_or_dict.
  destruct (truthy (get data "ai_summary")), (truthy (get data "prediction")),
    (is_dict (get data "prediction")); split; intros H; try tauto; try (by left);
    try (by right; left); try (by right; right);
    try (by intros (? & ? & ?)); by destruct H as [?|[?|?]].
Qed.

Lemma table_data_is_Some (data : dict) :
  is_Some (App.table_data container_repr data) ↔
  truthy (get data "readings") = false
  ∨ ∃ readings, get data "readings" = JList readings
                ∧ Forall (λ v, is_dict v = true) (take 5 readings).
Proof.
  unfold App.table_data, or_else.
  destruct (truthy (get data "readings")) eqn:Ht; [|split; eauto].
  destruct (get data "readings") as [| | | | |readings|];
    try (split; [by intros [? ?]|by intros [?|(? & ? & _)]]).
  assert (Hbind : ∀ m : option (list (list string)),
            is_Some (m ≫= λ rows, Some (App.table_header :: rows)) ↔ is_Some m).
  { intros [rows|]; cbn [mbind option_bind]; split; intros [? ?]; by eauto. }
  rewrite Hbind, mapM_is_Some. split.
  - intros Hall. right. exists readings. split; [done|].
    eapply Forall_impl; [exact Hall|]. intros [] [? ?]; done.
  - intros [?|(? & [= <-] & Hall)]; [done|].
    eapply Forall_impl; [exact Hall|]. intros []; by eauto.
Qed.

Section Reportlab.

Variable generated : string.
Variable Paragraph : json → bool.
Variable Table : list (list string) → bool.
Variable build : App.report → bool.

Local Abbreviation _build_pdf :=
  (App._build_pdf container_repr generated Paragraph Table build).

(** X15: an entry among the first five readings that is not a JSON object
    makes the assembly raise: there is no table and no report, whatever
    reportlab accepts. *)
Theorem X15_reading_that_is_not_an_object (data : dict) (readings : list json)
    (i : nat) (v : json) :
  data !! "readings" = Some (JList readings) →
  (i < 5)%nat → readings !! i = Some v → is_dict v = false →
  App.table_data container_repr data = None
  ∧ _build_pdf (JDict data) = None.
Proof.
  intros Hd Hi Hv Hnd.
  assert (App.table_data container_repr data = None) as Ht.
  { rewrite (table_data_of_list _ _ Hd).
    rewrite mapM_None_2; [done|]. apply Exists_exists. exists v. split.
    - apply list_elem_of_lookup. exists i. by rewrite lookup_take_lt.
    - by destruct v. }
  split; [done|]. rewrite build_pdf_spec. unfold App.report_content.
  rewrite Ht. by destruct (App.user_lines _ _).
Qed.

(** X18: the three parts of the report are computed without an exception
    exactly on the requests whose user is a JSON object or tests false,
    whose readings test false or are a list with objects in its first five
    places, and whose summary tests true or whose prediction is an object
    or tests false.  [_build_pdf] returns exactly when they are computed
    and reportlab builds a paragraph of each text it is given (the
    headings, the user lines and the summary), the table and the
    document. *)
Theorem X18_requests_that_assemble (data : dict) :
  (is_Some (App.report_content container_repr (JDict data)) ↔
   falsy_or_dict (get data "user")
   ∧ (truthy (get data "readings") = false
      ∨ ∃ readings, get data "readings" = JList readings
                    ∧ Forall (λ v, is_dict v = true) (take 5 readings))
   ∧ (truthy (get data "ai_summary") = true ∨ falsy_or_dict (get data "prediction")))
  ∧ (is_Some (_build_pdf (JDict data)) ↔
     ∃ rep, App.report_content container_repr (JDict data) = Some rep
            ∧ Forall (λ text, Paragraph text = true) (App.paragraph_texts generated rep)
            ∧ Table (App.readings_table rep) = true
            ∧ build rep = true).
Proof.
  split.
  - rewrite <- user_lines_is_Some, <- table_data_is_Some, <- summary_is_Some.
    unfold App.report_content.
    destruct (App.user_lines _ _), (App.table_data _ _), (App.summary _ _);
      cbn [mbind option_bind]; rewrite !is_Some_alt; tauto.
  - rewrite build_pdf_spec.
    destruct (App.report_content container_repr (JDict data)) as [rep|];
      cbn [mbind option_bind].
    + destruct (forallb Paragraph (App.paragraph_texts generated rep)) eqn:HP;
        [destruct (Table (App.readings_table rep)) eqn:HT;
         [destruct (build rep) eqn:HB|]|]; cbn [andb].
      * split; [|by eauto]. intros _. exists rep.
        split; [done|]. split; [|done].
        apply Forall_forall. intros text Hin.
        apply (proj1 (forallb_forall _ _) HP). by apply list_elem_of_In.
      * split; [by intros [? [=]]|]. intros (? & [= <-] & _ & _ & ?). congruence.
      * split; [by intros [? [=]]|]. intros (? & [= <-] & _ & ? & _). congruence.
      * split; [by intros [? [=]]|]. intros (? & [= <-] & Hall & _).
        assert (forallb Paragraph (App.paragraph_texts generated rep) = true);
          [|congruence].
        apply forallb_forall. intros text Hin.
        apply (proj1 (Forall_forall _ _) Hall). by apply list_elem_of_In.
    + split; [by intros [? [=]]|]. by intros (? & [=] & _).
Qed.

(** X19: a request that has no user, no readings, no summary and no
    prediction (or has values that test false for them) still gets the
    content of a report: the three placeholders.  So does a body that is
    not JSON.  [_build_pdf] returns this report when reportlab builds the
    four headings, the two placeholder paragraphs, the table of the header
    row alone and the document. *)
Theorem X19_report_of_the_empty_request (data : dict) :
  (truthy (get data "user") = false → truthy (get data "readings") = false →
   truthy (get data "ai_summary") = false → truthy (get data "prediction") = false →
   App.report_content container_repr (JDict data)
   = Some (App.Report ["No user details provided"%string] [App.table_header]
                      (JStr "N/A")))
  ∧ (∀ request_json, truthy (default JNull request_json) = false →
       App.generate_report_content container_repr request_json
       = Some (App.Report ["No user details provided"%string] [App.table_header]
                          (JStr "N/A")))
  ∧ (truthy (get data "user") = false → truthy (get data "readings") = false →
     truthy (get data "ai_summary") = false → truthy (get data "prediction") = false →
     Forall (λ text, Paragraph (JStr text) = true)
            ["HealTrack Health Report"%string; "Generated: " +:+ generated;
             "User Details"%string; "No user details provided"%string;
             "Last 5 Health Readings"%string; "AI Prediction Summary"%string;
             "N/A"%string] →
     Table [App.table_header] = true →
     build (App.Report ["No user details provided"%string] [App.table_header]
                       (JStr "N/A")) = true →
     _build_pdf (JDict data)
     = Some (App.Report ["No user details provided"%string] [App.table_header]
                        (JStr "N/A"))).
Proof.
  assert (Hplain : ∀ d : dict,
            truthy (get d "user") = false → truthy (get d "readings") = false →
            truthy (get d "ai_summary") = false → truthy (get d "prediction") = false →
            App.report_content container_repr (JDict d)
            = Some (App.Report ["No user details provided"%string] [App.table_header]
                               (JStr "N/A"))).
  { intros d Hu Hr Hs Hp. unfold App.report_content.
    rewrite (summary_of_falsy d Hs).
    unfold App.user_lines, App.table_data. by rewrite !or_else_falsy. }
  split; [apply Hplain|]. split.
  - intros request_json Hf. unfold App.generate_report_content.
    rewrite or_else_falsy by done. by apply Hplain.
  - intros Hu Hr Hs Hp Hall HT HB. rewrite build_pdf_spec, (Hplain data) by done.
    cbn [mbind option_bind]. unfold App.paragraph_texts.
    cbn [App.user_block App.readings_table App.summary_text
         fmap list_fmap app forallb].
    rewrite HT, HB.
    by repeat (apply Forall_cons in Hall as [-> Hall]).
Qed.

End Reportlab.

End ReportFacts.

(** ** The further properties on the example inputs *)

Lemma X6_main_status_witness :
  status (Main.predict Examples.no_literal (Some (JDict Examples.four_vitals))) = 200
  ∧ Main.predict Examples.no_literal (Some (JList []))
    = Response (error_body "Invalid JSON body") 400.
Proof.
  destruct (X6_main_status Examples.no_literal (Some (JDict Examples.four_vitals)))
    as ([_ Hok] & _).
  destruct (X6_main_status Examples.no_literal (Some (JList [])))
    as (_ & _ & Hbody & _).
  split.
  - apply Hok. exists Examples.four_vitals, 120%float, 70%float, 100%float, 24%float.
    repeat split.
  - by apply (Hbody (JList [])).
Defined.

Lemma X12_health_agrees_with_predict_witness :
  App.predict Examples.no_literal None (Some (JDict Examples.four_vitals))
  = Ok (Response (error_body "Model not loaded. Train first.") 500).
Proof.
  exact (proj1 (X12_health_agrees_with_predict Examples.no_literal None) eq_refl
           (Some (JDict Examples.four_vitals))).
Defined.

Lemma X13_user_block_witness :
  ∃ lines,
    App.user_lines Examples.no_container Examples.profile_request = Some lines
    ∧ "<b>Name</b>: Ann"%string ∈ lines
    ∧ "<b>Age</b>: 30"%string ∈ lines.
Proof.
  destruct (X13_user_block Examples.no_container Examples.profile_request
              {[ "name" := JStr "Ann"; "age" := JInt 30 ]} eq_refl)
    as (lines & Hl & _ & _ & _ & Hfield & _).
  exists lines. split; [exact Hl|]. split.
  - apply (Hfield "name" "Name" (JStr "Ann")); [|reflexivity|discriminate].
    apply list_elem_of_here.
  - apply (Hfield "age" "Age" (JInt 30)); [|reflexivity|discriminate].
    do 2 apply list_elem_of_further. apply list_elem_of_here.
Defined.

Lemma X14_readings_after_the_fifth_witness :
  App.table_data Examples.no_container Examples.report_request
  = App.table_data Examples.no_container Examples.stray_sixth_request.
Proof.
  exact (X14_readings_after_the_fifth Examples.no_container
           Examples.report_request Examples.stray_sixth_request
           (JDict <$> take 5 Examples.seven_readings)
           (JDict <$> drop 5 Examples.seven_readings) [JStr "n/a"]
           eq_refl eq_refl eq_refl).
Defined.

Lemma X16_present_sub_field_witness :
  App.table_row Examples.no_container {[ "date" := JNull ]} !! 0%nat
  = Some "None"%string.
Proof.
  exact (proj1 (proj2 (X16_present_sub_field Examples.no_container
                         {[ "date" := JNull ]} 0 "date" JNull eq_refl eq_refl))
           eq_refl).
Defined.

Lemma X17_summary_is_never_empty_witness :
  App.summary Examples.no_container Examples.summary_request = Some (JStr "Stable.").
Proof.
  exact (proj1 (proj2 (X17_summary_is_never_empty Examples.no_container
                         Examples.summary_request)) eq_refl).
Defined.

Lemma X15_reading_that_is_not_an_object_witness :
  App._build_pdf Examples.no_container Examples.a_time Examples.every_text
    Examples.every_table Examples.every_document
    (JDict Examples.stray_first_request) = None.
Proof.
  exact (proj2 (X15_reading_that_is_not_an_object Examples.no_container
                  Examples.a_time Examples.every_text Examples.every_table
                  Examples.every_document
                  Examples.stray_first_request [JStr "n/a"] 0 (JStr "n/a")
                  eq_refl ltac:(lia) eq_refl eq_refl)).
Defined.

Lemma X18_requests_that_assemble_witness :
  is_Some (App.report_content Examples.no_container (JDict Examples.report_request))
  ∧ is_Some (App._build_pdf Examples.no_container Examples.a_time Examples.every_text
               Examples.every_table Examples.every_document
               (JDict Examples.report_request)).
Proof.
  pose proof (X18_requests_that_assemble Examples.no_container Examples.a_time
                Examples.every_text Examples.every_table Examples.every_document
                Examples.report_request) as [Hcontent Hpdf].
  assert (is_Some (App.report_content Examples.no_container
                     (JDict Examples.report_request))) as Hsome.
  { apply Hcontent. split; [left; reflexivity|]. split.
    - right. exists (JDict <$> Examples.seven_readings). split; [reflexivity|].
      vm_compute. repeat constructor.
    - right. right. reflexivity. }
  split; [exact Hsome|].
  apply Hpdf. destruct Hsome as [rep Hrep]. exists rep.
  split; [exact Hrep|]. split; [|split; reflexivity].
  apply Forall_forall. intros text _. reflexivity.
Defined.

Lemma X19_report_of_the_empty_request_witness :
  App.generate_report_content Examples.no_container None
  = Some (App.Report ["No user details provided"%string] [App.table_header]
                     (JStr "N/A"))
  ∧ App._build_pdf Examples.no_container Examples.a_time Examples.every_text
      Examples.every_table Examples.every_document (JDict Examples.empty_request)
    = Some (App.Report ["No user details provided"%string] [App.table_header]
                       (JStr "N/A")).
Proof.
  pose proof (X19_report_of_the_empty_request Examples.no_container Examples.a_time
                Examples.every_text Examples.every_table Examples.every_document
                Examples.empty_request) as (_ & Hbody & Hpdf).
  split; [exact (Hbody None eq_refl)|].
  apply Hpdf; try reflexivity. repeat constructor.
Defined.
